(** * flytekit_learn.fastapi: endpoint orchestration and labelling sessions

    A shallow embedding of [src/flytekit_learn/fastapi.py].  The three request
    handlers that [_app_decorator_wrapper] closes over ([_train_endpoint],
    [_predict_endpoint], [_labeller_endpoint]) are written in a small
    state-and-exception monad; the collaborators of the module (the remote
    execution gateway [model._remote], the dataset provider [model._dataset],
    the local [model.train] / [model.predict]) are fields of an environment
    record, and every call to one of them is logged, so that statements of the
    form "no remote call is made" are statements about the log. *)

From Stdlib Require Import ZArith String List Bool.
From stdpp Require Import base option list strings gmap fin_maps.

Open Scope string_scope.
Open Scope Z_scope.

(** ** Python values *)

(** The payloads that travel through the handlers.  Model artefacts, metrics,
    feature tensors and batches are opaque to this module: [VObj]. *)
Inductive Value : Type :=
| VNone
| VBool (b : bool)
| VInt (z : Z)
| VStr (s : string)
| VObj (n : nat).

#[global] Instance Value_eq_dec : EqDecision Value.
Proof. solve_decision. Defined.

(** [Dict] / [Dict[str, Any]] in the source. *)
Abbreviation Dict := (gmap string Value).

(** [x is None] *)
Definition is_None (v : Value) : bool :=
  match v with VNone => true | _ => false end.

(** Truth value of an [Optional[str]], an [Optional[Dict]] and an
    [Optional[List[...]]]: [None] and the empty container are false. *)
Definition truthy_str (s : option string) : bool :=
  match s with
  | Some s => negb (String.eqb s "")
  | None => false
  end.

Definition truthy_dict (d : option Dict) : bool :=
  match d with
  | Some d => negb (bool_decide (d = ∅))
  | None => false
  end.

Definition truthy_list {A : Type} (l : option (list A)) : bool :=
  match l with
  | Some (_ :: _) => true
  | _ => false
  end.

(** ** Exceptions *)

(** What a handler can raise.  [HTTPException] is raised by the handlers
    themselves only; an exception that escapes from a collaborator is carried
    by [RemoteError] or [ProviderError], whatever its Python class. *)
Inductive Exc : Type :=
| HTTPException (status_code : Z) (detail : string)
| ValueError (msg : string)
| TypeError (msg : string)
| KeyError (key : string)
| UnboundLocalError (var : string)
| StopIteration
| RemoteError (msg : string)
| ProviderError (msg : string).

#[global] Instance Exc_eq_dec : EqDecision Exc.
Proof. solve_decision. Defined.

(** The names the specification gives to the failures of the handlers. *)
Definition ModelNotTrained : Exc :=
  HTTPException 500 "trained model not found".
Definition NoTrainedModelFound : Exc :=
  ValueError "not enough values to unpack (expected at least 1, got 0)".
Definition NoSubmissionExpected : Exc :=
  HTTPException 400 "Labels already submitted for current batch".
Definition SubmissionPending : Exc :=
  HTTPException 400 "Awaiting labels from current batch".

(** ** Endpoint registration: [_app_decorator_wrapper] *)

Inductive Endpoints : Type := TRAINER | PREDICTOR | EVALUATOR | LABELLER.

(** Annotations of handler parameters: a plain type, or a pydantic model with
    a name and its fields, each with its type and whether it is required. *)
Inductive FieldInfo : Type := Required | HasDefault.

Inductive PyType : Type :=
| TyBool | TyInt | TyFloat | TyStr | TyAny
| TyDict
| TyOptional (t : PyType)
| TyList (t : PyType).

Inductive Annotation : Type :=
| Plain (t : PyType)
| PydanticModel (name : string) (fields : list (string * (PyType * FieldInfo))).

Inductive ParamDefault : Type :=
| DefaultFalse            (* [= False] *)
| DefaultNone             (* [= None] *)
| DefaultInt (z : Z)      (* [= 3] *)
| DefaultStr (s : string) (* [= "latest"] *)
| NoDefault
| BodyRequired            (* [= Body(...)] *)
| BodyNone.               (* [= Body(None)] *)

Record Param : Type := mkParam {
  p_name : string;
  p_annotation : Annotation;
  p_default : ParamDefault
}.

Definition Signature := list Param.

(** [signature(_train_endpoint)], lines 64-68. *)
Definition train_endpoint_signature : Signature :=
  [ mkParam "local" (Plain TyBool) DefaultFalse;
    mkParam "model_name" (Plain (TyOptional TyStr)) DefaultNone;
    mkParam "inputs" (Plain TyDict) BodyRequired ].

(** [create_model("HyperparameterModel", **{k: (v, ...) for k, v in
    model._hyperparameters.items()})]: the ellipsis marks each field as
    required. *)
Definition create_HyperparameterModel (hp : list (string * PyType)) : Annotation :=
  PydanticModel "HyperparameterModel" (map (fun kv => (kv.1, (kv.2, Required))) hp).

(** [sig.parameters[p].replace(annotation=...)] *)
Definition replace_annotation (p : Param) (a : Annotation) : Param :=
  mkParam (p_name p) a (p_default p).

(** Lines 204-210: the list comprehension over [sig.parameters]. *)
Definition replace_hyperparameters (sig : Signature) (HyperparameterModel : Annotation)
  : Signature :=
  map (fun p =>
         if String.eqb (p_name p) "hyperparameters"
         then replace_annotation p HyperparameterModel
         else p) sig.

(** [model._hyperparameters] is a dict or [None]; it counts as declared when
    it is a non-empty dict. *)
Definition declares_hyperparameters (hp : option (list (string * PyType))) : bool :=
  truthy_list hp.

(** Lines 200-210: the signature the train handler carries after registration. *)
Definition shaped_train_signature (hp : option (list (string * PyType)))
  : Signature :=
  match hp with
  | Some ((_ :: _) as decl) =>
      replace_hyperparameters train_endpoint_signature
        (create_HyperparameterModel decl)
  | _ => train_endpoint_signature
  end.

(** [signature(_predict_endpoint)] and [signature(_labeller_endpoint)],
    lines 89-96 and 148-154. *)
Definition predict_endpoint_signature : Signature :=
  [ mkParam "local" (Plain TyBool) DefaultFalse;
    mkParam "model_name" (Plain (TyOptional TyStr)) DefaultNone;
    mkParam "model_version" (Plain TyStr) (DefaultStr "latest");
    mkParam "model_source" (Plain TyStr) (DefaultStr "remote");
    mkParam "inputs" (Plain (TyOptional TyDict)) BodyNone;
    mkParam "features" (Plain (TyOptional (TyList TyDict))) BodyNone ].

Definition labeller_endpoint_signature : Signature :=
  [ mkParam "session_id" (Plain TyStr) NoDefault;
    mkParam "batch_size" (Plain TyInt) (DefaultInt 3);
    mkParam "submit" (Plain TyBool) DefaultFalse;
    mkParam "reader_inputs" (Plain (TyOptional TyDict)) BodyNone;
    mkParam "submission" (Plain (TyOptional (TyList TyDict))) BodyNone ].

(** What [decorator(endpoint_fn)] receives: which handler, under which
    signature. *)
Record Registration : Type := mkRegistration {
  reg_endpoint : Endpoints;
  reg_signature : Signature
}.

(** The [wrapper] of [_app_decorator_wrapper], lines 59-213.  [app_method] is
    [app_method.__name__], [tag] is [fn.__app_method__], [hp] is
    [model._hyperparameters].  This is the wrapper on a function that carries
    a tag and on a declaration that [create_model] accepts; [register] below
    adds what is raised otherwise. *)
Definition registration_wrapper
    (app_method : string) (tag : Endpoints)
    (hp : option (list (string * PyType))) : Exc + Registration :=
  if negb (bool_decide (app_method ∈ ["get"; "post"; "put"]))
  then inl (ValueError ("flytekit-learn only supports 'get' and 'post' methods: found "
                          ++ app_method))
  else
    match tag with
    | EVALUATOR => inl (KeyError "Endpoints.EVALUATOR")
    | TRAINER =>
        inr (mkRegistration TRAINER
               (if declares_hyperparameters hp
                then shaped_train_signature hp
                else train_endpoint_signature))
    | PREDICTOR => inr (mkRegistration PREDICTOR predict_endpoint_signature)
    | LABELLER => inr (mkRegistration LABELLER labeller_endpoint_signature)
    end.

(** The schema of the request body the train handler accepts: the annotation
    of its body parameter [inputs]. *)
Definition accepted_input_schema (sig : Signature) : option Annotation :=
  p_annotation <$> find (fun p => String.eqb (p_name p) "inputs") sig.

(** ** Collaborators *)

(** [train_wf.id] *)
Record Identifier : Type := mkIdentifier {
  id_project : string;
  id_domain : string;
  id_name : string;
  id_version : string
}.

Record FlyteWorkflow : Type := mkWorkflow { wf_id : Identifier }.

(** [flytekit.models.filters.Equal(key, value)] and
    [Sort(key, Sort.Direction.X)] *)
Inductive Filter : Type := Equal (key value : string).
Inductive Direction : Type := ASCENDING | DESCENDING.
Record Sort : Type := mkSort { sort_key : string; sort_direction : Direction }.

(** An execution as the admin client lists it. *)
Record ExecutionModel : Type := mkExecutionModel {
  ex_project : string;
  ex_domain : string;
  ex_launch_plan : string;
  ex_phase : string;
  ex_created_at : Z
}.

(** An execution as [FlyteRemote] hands it out; [outputs] is filled by
    [execute(..., wait=True)] and by [sync]. *)
Record FlyteWorkflowExecution : Type := mkExecution {
  fwe_model : option ExecutionModel;
  outputs : Dict
}.

(** [FlyteWorkflowExecution.promote_from_model] *)
Definition promote_from_model (m : ExecutionModel) : FlyteWorkflowExecution :=
  mkExecution (Some m) ∅.

(** One resumption of the body of the labelling generator: it runs to its
    next [yield], returns, or raises. *)
Inductive GenOutcome (G : Type) : Type :=
| GenYield (batch : Value) (rest : G)
| GenReturn
| GenRaise (msg : string).
Arguments GenYield {G} batch rest.
Arguments GenReturn {G}.
Arguments GenRaise {G} msg.

(** A Python generator object: not started, suspended at a [yield], or
    finished.  A finished generator stays finished. *)
Inductive Generator (G : Type) : Type :=
| GenCreated (body : G)
| GenSuspended (body : G)
| GenClosed.
Arguments GenCreated {G} body.
Arguments GenSuspended {G} body.
Arguments GenClosed {G}.

(** [Optional[List[Dict[str, Any]]]]: the [submission] and [features] bodies. *)
Abbreviation Records := (option (list Dict)).

(** Everything the handlers close over or import.  A collaborator either
    returns or raises; what it raises is opaque here (a message).  [G] is the
    type of the suspended state of the generator that
    [model._dataset._labeller] returns. *)
Record Env (G : Type) : Type := mkEnv {
  (* the Model Handle *)
  train_workflow_name : string;
  predict_workflow_name : string;
  predict_from_features_workflow_name : string;
  model_train : Dict -> string + (Value * Value);
  model_predict : Dict -> string + Value;
  py_str : Value -> string;
  (* [model._remote] *)
  remote_fetch_workflow : string -> option string -> string + FlyteWorkflow;
  remote_execute : FlyteWorkflow -> Dict -> string + FlyteWorkflowExecution;
  client_list_executions_paginated :
    string -> string -> Z -> list Filter -> Sort ->
    string + (list ExecutionModel * string);
  remote_sync : FlyteWorkflowExecution -> string + FlyteWorkflowExecution;
  (* [model._dataset] *)
  dataset_get_features : list Dict -> string + Value;
  dataset_labeller : string -> Z -> Dict -> string + G;
  labeller_resume : G -> Records -> GenOutcome G
}.
Arguments train_workflow_name {G} _.
Arguments predict_workflow_name {G} _.
Arguments predict_from_features_workflow_name {G} _.
Arguments model_train {G} _ _.
Arguments model_predict {G} _ _.
Arguments py_str {G} _ _.
Arguments remote_fetch_workflow {G} _ _ _.
Arguments remote_execute {G} _ _ _.
Arguments client_list_executions_paginated {G} _ _ _ _ _ _.
Arguments remote_sync {G} _ _.
Arguments dataset_get_features {G} _ _.
Arguments dataset_labeller {G} _ _ _ _.
Arguments labeller_resume {G} _ _ _.

(** The calls a handler makes to its collaborators, in the order it makes
    them. *)
Inductive Call : Type :=
| CallFetchWorkflow (name : string) (version : option string)
| CallExecute (wf : FlyteWorkflow) (inputs : Dict)
| CallListExecutions (project domain : string) (limit : Z)
                     (filters : list Filter) (sort_by : Sort)
| CallSync (execution : FlyteWorkflowExecution)
| CallTrain (kwargs : Dict)
| CallPredict (kwargs : Dict)
| CallGetFeatures (features : list Dict)
| CallLabeller (session_id : string) (batch_size : Z) (kwargs : Dict)
| CallNext (session_id : string)
| CallSend (session_id : string) (submission : Records).

(** The calls that reach the Remote Execution Gateway. *)
Definition is_remote_call (c : Call) : bool :=
  match c with
  | CallFetchWorkflow _ _ | CallExecute _ _
  | CallListExecutions _ _ _ _ _ | CallSync _ => true
  | _ => false
  end.

Definition is_fetch_workflow (c : Call) : bool :=
  match c with CallFetchWorkflow _ _ => true | _ => false end.

Definition is_execute (c : Call) : bool :=
  match c with CallExecute _ _ => true | _ => false end.

Definition is_local_predict (c : Call) : bool :=
  match c with CallPredict _ => true | _ => false end.

(** The calls that run a prediction, remotely or locally. *)
Definition is_prediction (c : Call) : bool :=
  match c with CallExecute _ _ | CallPredict _ => true | _ => false end.

(** ** Mutable state *)

(** An entry of [APP_LABELLER_CACHE]. *)
Record Session (G : Type) : Type := mkSession {
  generator : Generator G;
  awaiting_submission : bool;
  session_complete : bool
}.
Arguments mkSession {G} _ _ _.
Arguments generator {G} _.
Arguments awaiting_submission {G} _.
Arguments session_complete {G} _.

(** The three conditions of a session, read off its two flags. *)
Definition batch_awaiting_submission {G} (s : Session G) : bool :=
  awaiting_submission s.
Definition is_complete {G} (s : Session G) : bool :=
  session_complete s.
Definition ready_for_next_batch {G} (s : Session G) : bool :=
  negb (awaiting_submission s) && negb (session_complete s).

Definition exactly_one (a b c : bool) : bool :=
  match a, b, c with
  | true, false, false | false, true, false | false, false, true => true
  | _, _, _ => false
  end.

(** The generator has been advanced at least once. *)
Definition started {G} (g : Generator G) : bool :=
  match g with GenCreated _ => false | _ => true end.

(** A complete session has a finished generator and awaits nothing; a
    session that awaits a submission has a generator that was started. *)
Definition entry_ok {G} (s : Session G) : Prop :=
  (session_complete s = true ->
   awaiting_submission s = false /\ generator s = GenClosed)
  /\ (awaiting_submission s = true -> started (generator s) = true).

(** The two cache slots of the Model Handle and the module-level session
    table.  The generator an entry holds is the object the handler advances:
    the entry and the local variable [generator] are aliases, so advancing
    the generator is an update of the entry. *)
Record State (G : Type) : Type := mkState {
  _latest_model : Value;
  _metrics : Value;
  APP_LABELLER_CACHE : gmap string (Session G)
}.
Arguments mkState {G} _ _ _.
Arguments _latest_model {G} _.
Arguments _metrics {G} _.
Arguments APP_LABELLER_CACHE {G} _.

(** The Model Handle's cache: [latest_model] and [latest_metrics], as a pair. *)
Definition cache_slots {G} (st : State G) : Value * Value :=
  (_latest_model st, _metrics st).

(** The state with another session table. *)
Definition with_sessions {G} (st : State G) (table : gmap string (Session G))
  : State G :=
  mkState (_latest_model st) (_metrics st) table.

(** A freshly imported module and a freshly built Model Handle. *)
Definition initial_state {G : Type} : State G := mkState VNone VNone ∅.

(** ** The handler monad *)

(** One run of a handler from a state: what it returned or raised, the state
    it left (what was mutated before an exception stays mutated), and the
    collaborator calls it made. *)
Record Run (G A : Type) : Type := mkRun {
  result : Exc + A;
  state_after : State G;
  calls : list Call
}.
Arguments mkRun {G A} _ _ _.
Arguments result {G A} _.
Arguments state_after {G A} _.
Arguments calls {G A} _.

Definition M (G A : Type) : Type := State G -> Run G A.

#[global] Instance M_ret {G} : MRet (M G) :=
  fun A (a : A) st => mkRun (inr a) st [].

#[global] Instance M_bind {G} : MBind (M G) :=
  fun A B (k : A -> M G B) (m : M G A) st =>
    match m st with
    | mkRun (inl e) st' cs => mkRun (inl e) st' cs
    | mkRun (inr a) st' cs =>
        match k a st' with
        | mkRun r st'' cs' => mkRun r st'' (cs ++ cs')
        end
    end.

Definition raise {G A} (e : Exc) : M G A :=
  fun st => mkRun (inl e) st [].

(** A call to a collaborator: logged, then its return value or what it
    raised, wrapped by [wrap]. *)
Definition call {G A} (c : Call) (wrap : string -> Exc) (r : string + A) : M G A :=
  fun st =>
    mkRun (match r with inl msg => inl (wrap msg) | inr a => inr a end) st [c].

Definition get_state {G} : M G (State G) :=
  fun st => mkRun (inr st) st [].

Definition put_state {G} (st' : State G) : M G unit :=
  fun _ => mkRun (inr tt) st' [].

(** [d[key]] *)
Definition getitem {G} (d : Dict) (key : string) : M G Value :=
  match d !! key with
  | Some v => mret v
  | None => raise (KeyError key)
  end.

(** Reading a local variable that may not have been bound. *)
Definition read_local {G A} (var : string) (x : option A) : M G A :=
  match x with
  | Some a => mret a
  | None => raise (UnboundLocalError var)
  end.

(** A computation that leaves the state as it found it. *)
Definition preserves_state {G A} (m : M G A) : Prop :=
  forall st, state_after (m st) = st.

(** A computation that raises nothing but exceptions in [P]. *)
Definition raises_only {G A} (P : Exc -> bool) (m : M G A) : Prop :=
  forall st e, result (m st) = inl e -> P e = true.

(** What the predict handler can raise once the model is resolved: only what
    a collaborator raised, a missing output, or the unbound [predict_wf]. *)
Definition after_resolution (e : Exc) : bool :=
  match e with
  | RemoteError _ | ProviderError _ | KeyError _ | UnboundLocalError _ => true
  | _ => false
  end.

(** ** Requests and responses *)

(** The [inputs] body of the train handler: a plain dict, or an instance of a
    pydantic model (line 69), of which [.dict()] gives the fields. *)
Inductive TrainBody : Type :=
| BodyDict (d : Dict)
| BodyModel (fields : Dict).

Record TrainRequest : Type := mkTrainRequest {
  tr_local : bool;
  tr_model_name : option string;
  tr_inputs : TrainBody
}.

Record PredictRequest : Type := mkPredictRequest {
  pr_local : bool;
  pr_model_name : option string;
  pr_model_version : string;
  pr_model_source : string;
  pr_inputs : option Dict;
  pr_features : Records
}.

Record LabelRequest : Type := mkLabelRequest {
  lr_session_id : string;
  lr_batch_size : Z;
  lr_submit : bool;
  lr_reader_inputs : option Dict;
  lr_submission : Records
}.

Inductive Response : Type :=
| TrainResponse (trained_model : string) (metrics : Value)
| PredictResponse (predictions : Value)
| SubmitResponse (success : bool) (session_complete : bool)
| BatchResponse (batch : Value) (session_complete : bool).

Section Handlers.

Context {G : Type}.
Variable E : Env G.

(** *** [_train_endpoint], lines 64-87 *)

(** [f"{model_name}.<suffix>" if model_name else <default>] *)
Definition workflow_name (model_name : option string)
    (suffix : string) (default : string) : string :=
  match model_name with
  | Some n => if truthy_str (Some n) then n ++ "." ++ suffix else default
  | None => default
  end.

Definition set_latest (trained_model metrics : Value) : M G unit :=
  st ← get_state;
  put_state (mkState trained_model (_metrics st) (APP_LABELLER_CACHE st));;
  st ← get_state;
  put_state (mkState (_latest_model st) metrics (APP_LABELLER_CACHE st)).

(** Lines 69-70: [inputs.dict()] when [inputs] is a pydantic model. *)
Definition as_dict (inputs : TrainBody) : Dict :=
  match inputs with
  | BodyModel fields => fields
  | BodyDict d => d
  end.

Definition _train_endpoint (req : TrainRequest) : M G Response :=
  let inputs := as_dict (tr_inputs req) in
  '(trained_model, metrics) ←
    (if negb (tr_local req) then
       let name :=
         workflow_name (tr_model_name req) "train" (train_workflow_name E) in
       train_wf ← call (CallFetchWorkflow name None) RemoteError
                    (remote_fetch_workflow E name None);
       execution ← call (CallExecute train_wf inputs) RemoteError
                     (remote_execute E train_wf inputs);
       trained_model ← getitem (outputs execution) "trained_model";
       metrics ← getitem (outputs execution) "metrics";
       mret (trained_model, metrics)
     else
       '(trained_model, metrics) ←
         call (CallTrain inputs) ProviderError (model_train E inputs);
       set_latest trained_model metrics;;
       mret (trained_model, metrics));
  mret (TrainResponse (py_str E trained_model) metrics).

(** *** [_predict_endpoint], lines 89-146 *)

(** [version] of line 97. *)
Definition requested_version (req : PredictRequest) : option string :=
  if String.eqb (pr_model_version req) "latest"
  then None else Some (pr_model_version req).

(** The name under which lines 99-102 fetch the train workflow. *)
Definition train_workflow_of (req : PredictRequest) : string :=
  workflow_name (pr_model_name req) "train" (train_workflow_name E).

(** Lines 98-121: the model to score with. *)
Definition resolve_model (req : PredictRequest) (version : option string)
  : M G Value :=
  if String.eqb (pr_model_source req) "remote" then
    let name :=
      workflow_name (pr_model_name req) "train" (train_workflow_name E) in
    train_wf ← call (CallFetchWorkflow name version) RemoteError
                 (remote_fetch_workflow E name version);
    let project := id_project (wf_id train_wf) in
    let domain := id_domain (wf_id train_wf) in
    let filters := [ Equal "launch_plan.name" (id_name (wf_id train_wf));
                     Equal "phase" "SUCCEEDED" ] in
    let sort_by := mkSort "created_at" DESCENDING in
    page ← call (CallListExecutions project domain 1 filters sort_by) RemoteError
             (client_list_executions_paginated E project domain 1 filters sort_by);
    (* [[latest_training_execution, *_], _ = ...] *)
    latest_training_execution ←
      match page.1 with
      | x :: _ => mret x
      | [] => raise (ValueError
                       "not enough values to unpack (expected at least 1, got 0)")
      end;
    let latest_training_execution :=
      promote_from_model latest_training_execution in
    synced ← call (CallSync latest_training_execution) RemoteError
               (remote_sync E latest_training_execution);
    getitem (outputs synced) "trained_model"
  else
    st ← get_state;
    if is_None (_latest_model st)
    then raise (HTTPException 500 "trained model not found")
    else mret (_latest_model st).

(** Lines 123-140: the inputs of the prediction and, when one of the two
    branches is taken, the predict workflow.  [workflow_inputs.update(inputs)]
    lets the keys of [inputs] win: [∪] on maps is left-biased. *)
Definition build_workflow_inputs (req : PredictRequest)
    (version : option string) (latest_model : Value)
  : M G (Dict * option FlyteWorkflow) :=
  let workflow_inputs : Dict := {[ "model" := latest_model ]} in
  if truthy_dict (pr_inputs req) then
    let workflow_inputs := default ∅ (pr_inputs req) ∪ workflow_inputs in
    let name :=
      workflow_name (pr_model_name req) "predict_workflow_name"
        (predict_workflow_name E) in
    predict_wf ← call (CallFetchWorkflow name version) RemoteError
                   (remote_fetch_workflow E name version);
    mret (workflow_inputs, Some predict_wf)
  else if truthy_list (pr_features req) then
    let records := default [] (pr_features req) in
    features ← call (CallGetFeatures records) ProviderError
                 (dataset_get_features E records);
    let workflow_inputs := <[ "features" := features ]> workflow_inputs in
    let name :=
      workflow_name (pr_model_name req) "predict_from_features_workflow_name"
        (predict_from_features_workflow_name E) in
    predict_wf ← call (CallFetchWorkflow name version) RemoteError
                   (remote_fetch_workflow E name version);
    mret (workflow_inputs, Some predict_wf)
  else
    mret (workflow_inputs, None).

Definition _predict_endpoint (req : PredictRequest) : M G Response :=
  let version :=
    if String.eqb (pr_model_version req) "latest"
    then None else Some (pr_model_version req) in
  latest_model ← resolve_model req version;
  '(workflow_inputs, predict_wf) ← build_workflow_inputs req version latest_model;
  predictions ←
    (if negb (pr_local req) then
       predict_wf ← read_local "predict_wf" predict_wf;
       execution ← call (CallExecute predict_wf workflow_inputs) RemoteError
                     (remote_execute E predict_wf workflow_inputs);
       getitem (outputs execution) "o0"
     else
       call (CallPredict workflow_inputs) ProviderError
         (model_predict E workflow_inputs));
  mret (PredictResponse predictions).

(** *** [_labeller_endpoint], lines 148-192 *)

(** [next(generator)] is [advance g None]; [generator.send(x)] is
    [advance g x].  The new state of the generator object and what the call
    returned or raised. *)
Definition resume (body : G) (sent : Records) : Generator G * (Exc + Value) :=
  match labeller_resume E body sent with
  | GenYield batch rest => (GenSuspended rest, inr batch)
  | GenReturn => (GenClosed, inl StopIteration)
  | GenRaise msg => (GenClosed, inl (ProviderError msg))
  end.

Definition advance (g : Generator G) (sent : Records)
  : Generator G * (Exc + Value) :=
  match g with
  | GenCreated body =>
      match sent with
      | Some _ =>
          (GenCreated body,
           inl (TypeError "can't send non-None value to a just-started generator"))
      | None => resume body None
      end
  | GenSuspended body => resume body sent
  | GenClosed => (GenClosed, inl StopIteration)
  end.

(** [APP_LABELLER_CACHE[session_id][...] = ...]: an update of the entry in
    place.  The handler only does this after it has bound or found the
    entry. *)
Definition update_entry (session_id : string) (f : Session G -> Session G)
  : M G unit :=
  st ← get_state;
  put_state (mkState (_latest_model st) (_metrics st)
               (alter f session_id (APP_LABELLER_CACHE st))).

(** A logged call that has already been evaluated. *)
Definition returned {A} (c : Call) (r : Exc + A) : M G A :=
  fun st => mkRun r st [c].

(** Advancing the generator object of the entry of [session_id]. *)
Definition advance_generator (session_id : string) (c : Call)
    (g : Generator G) (sent : Records) : M G Value :=
  update_entry session_id
    (fun s => mkSession (advance g sent).1
                (awaiting_submission s) (session_complete s));;
  returned c (advance g sent).2.

(** [try: body except StopIteration: handler] *)
Definition try_except_StopIteration {A} (body handler : M G A) : M G A :=
  fun st =>
    match body st with
    | mkRun (inl StopIteration) st' cs =>
        match handler st' with
        | mkRun r st'' cs' => mkRun r st'' (cs ++ cs')
        end
    | r => r
    end.

(** Lines 155-165. *)
Definition open_session (req : LabelRequest) : M G (Session G) :=
  let session_id := lr_session_id req in
  st ← get_state;
  match APP_LABELLER_CACHE st !! session_id with
  | None =>
      (* [**reader_inputs] *)
      kwargs ← match lr_reader_inputs req with
               | Some d => mret d
               | None => raise (TypeError
                   "argument after ** must be a mapping, not NoneType")
               end;
      body ← call (CallLabeller session_id (lr_batch_size req) kwargs)
               ProviderError
               (dataset_labeller E session_id (lr_batch_size req) kwargs);
      let entry := mkSession (GenCreated body) false false in
      put_state (mkState (_latest_model st) (_metrics st)
                   (<[ session_id := entry ]> (APP_LABELLER_CACHE st)));;
      mret entry
  | Some entry => mret entry
  end.

Definition _labeller_endpoint (req : LabelRequest) : M G Response :=
  let session_id := lr_session_id req in
  entry ← open_session req;
  let gen := generator entry in
  let awaiting := awaiting_submission entry in
  if lr_submit req then
    if negb awaiting then
      raise (HTTPException 400 "Labels already submitted for current batch")
    else
      advance_generator session_id
        (CallSend session_id (lr_submission req)) gen (lr_submission req);;
      update_entry session_id
        (fun s => mkSession (generator s) false (session_complete s));;
      mret (SubmitResponse true false)
  else if awaiting then
    raise (HTTPException 400 "Awaiting labels from current batch")
  else
    '(batch, complete) ←
      try_except_StopIteration
        (batch ← advance_generator session_id (CallNext session_id) gen None;
         update_entry session_id
           (fun s => mkSession (generator s) true (session_complete s));;
         mret (batch, false))
        (update_entry session_id
           (fun s => mkSession (generator s) (awaiting_submission s) true);;
         mret (VNone, true));
    mret (BatchResponse batch complete).

(** The entry a labelling request works on once lines 155-165 have run:
    the one in the table, or the one just created.  [None] when creating it
    raises. *)
Definition working_entry (req : LabelRequest) (st : State G)
  : option (Session G) :=
  match APP_LABELLER_CACHE st !! lr_session_id req with
  | Some entry => Some entry
  | None =>
      match lr_reader_inputs req with
      | Some kwargs =>
          match dataset_labeller E (lr_session_id req) (lr_batch_size req) kwargs with
          | inr body => Some (mkSession (GenCreated body) false false)
          | inl _ => None
          end
      | None => None
      end
  end.

(** Lines 167-192 as a function of that entry: the entry they leave and
    what the handler returns or raises ([labeller_on_entry] below relates
    it to [_labeller_endpoint]). *)
Definition serve_entry (entry : Session G) (submit : bool) (submission : Records)
  : Session G * (Exc + Response) :=
  if submit then
    if negb (awaiting_submission entry) then
      (entry, inl (HTTPException 400 "Labels already submitted for current batch"))
    else
      let g' := (advance (generator entry) submission).1 in
      match (advance (generator entry) submission).2 with
      | inr _ =>
          (mkSession g' false (session_complete entry),
           inr (SubmitResponse true false))
      | inl e =>
          (mkSession g' (awaiting_submission entry) (session_complete entry), inl e)
      end
  else if awaiting_submission entry then
    (entry, inl (HTTPException 400 "Awaiting labels from current batch"))
  else
    let g' := (advance (generator entry) None).1 in
    match (advance (generator entry) None).2 with
    | inr batch =>
        (mkSession g' true (session_complete entry),
         inr (BatchResponse batch false))
    | inl StopIteration =>
        (mkSession g' (awaiting_submission entry) true,
         inr (BatchResponse VNone true))
    | inl e =>
        (mkSession g' (awaiting_submission entry) (session_complete entry), inl e)
    end.

(** *** The service: any sequence of requests *)

Inductive Request : Type :=
| Train (req : TrainRequest)
| Predict (req : PredictRequest)
| Label (req : LabelRequest).

Definition handle (req : Request) : M G Response :=
  match req with
  | Train r => _train_endpoint r
  | Predict r => _predict_endpoint r
  | Label r => _labeller_endpoint r
  end.

(** The states the process can be in: the initial one, and the state any
    request leaves, whether it returned or raised. *)
Inductive reachable : State G -> Prop :=
| reachable_initial : reachable initial_state
| reachable_step st req :
    reachable st -> reachable (state_after (handle req st)).

End Handlers.

(** ** The execution history behind the gateway *)

(** Modelled from the spec: the admin client of the Remote Execution Gateway
    is not part of this module ([list_executions_paginated] belongs to
    flytekit).  The gateway keeps a history of executions and "can enumerate
    historical executions filtered and sorted by attributes": the listing
    keeps the executions of the project and domain that satisfy every filter,
    orders them by the sort key and truncates to [limit]. *)
Definition satisfies (x : ExecutionModel) (f : Filter) : bool :=
  match f with
  | Equal key value =>
      if String.eqb key "launch_plan.name" then String.eqb (ex_launch_plan x) value
      else if String.eqb key "phase" then String.eqb (ex_phase x) value
      else false
  end.

Definition selected (project domain : string) (filters : list Filter)
    (x : ExecutionModel) : bool :=
  String.eqb (ex_project x) project && String.eqb (ex_domain x) domain
  && forallb (satisfies x) filters.

Definition comes_first (sort_by : Sort) (x y : ExecutionModel) : bool :=
  if String.eqb (sort_key sort_by) "created_at" then
    match sort_direction sort_by with
    | DESCENDING => ex_created_at y <=? ex_created_at x
    | ASCENDING => ex_created_at x <=? ex_created_at y
    end
  else true.

Fixpoint insert_sorted (sort_by : Sort) (x : ExecutionModel)
    (l : list ExecutionModel) : list ExecutionModel :=
  match l with
  | [] => [x]
  | y :: l' =>
      if comes_first sort_by x y then x :: l
      else y :: insert_sorted sort_by x l'
  end.

Definition sort_executions (sort_by : Sort) (l : list ExecutionModel)
  : list ExecutionModel :=
  foldr (insert_sorted sort_by) [] l.

Definition list_executions (history : list ExecutionModel)
    (project domain : string) (limit : Z) (filters : list Filter) (sort_by : Sort)
  : list ExecutionModel :=
  take (Z.to_nat limit)
    (sort_executions sort_by
       (List.filter (selected project domain filters) history)).

(** The gateway of [E] answers listings from [history]. *)
Definition lists_from {G} (E : Env G) (history : list ExecutionModel) : Prop :=
  forall project domain limit filters sort_by,
    exists token,
      client_list_executions_paginated E project domain limit filters sort_by
      = inr (list_executions history project domain limit filters sort_by, token).

(** [history] holds a successful execution of the train workflow [wf]. *)
Definition has_succeeded_execution (history : list ExecutionModel)
    (wf : FlyteWorkflow) : Prop :=
  exists x, In x history
       /\ ex_project x = id_project (wf_id wf)
       /\ ex_domain x = id_domain (wf_id wf)
       /\ ex_launch_plan x = id_name (wf_id wf)
       /\ ex_phase x = "SUCCEEDED".

(** ** A small deployment to run the handlers on *)

Module Sample.

(** A labeller over a fixed list of batches: every resumption yields the
    next one, whatever was sent. *)
Definition batches_resume (rest : list Value) (sent : Records)
  : GenOutcome (list Value) :=
  match rest with
  | [] => GenReturn
  | b :: rest' => GenYield b rest'
  end.

Definition trained : Value := VObj 1.
Definition its_metrics : Value := VObj 2.

Definition env (history : list ExecutionModel) : Env (list Value) :=
  {| train_workflow_name := "digits.train";
     predict_workflow_name := "digits.predict";
     predict_from_features_workflow_name := "digits.predict_from_features";
     model_train := fun _ => inr (trained, its_metrics);
     model_predict := fun _ => inr (VObj 3);
     py_str := fun _ => "LogisticRegression()";
     remote_fetch_workflow := fun name version =>
       inr (mkWorkflow (mkIdentifier "sandbox" "development" name
                          (default "v1" version)));
     remote_execute := fun _ _ =>
       inr (mkExecution None
              (<[ "trained_model" := VObj 10 ]>
                 (<[ "metrics" := VObj 11 ]> {[ "o0" := VObj 12 ]})));
     client_list_executions_paginated := fun project domain limit filters sort_by =>
       inr (list_executions history project domain limit filters sort_by, "");
     remote_sync := fun e =>
       inr (mkExecution (fwe_model e) {[ "trained_model" := VObj 10 ]});
     dataset_get_features := fun _ => inr (VObj 20);
     dataset_labeller := fun _ _ _ => inr [VObj 100; VObj 101];
     labeller_resume := batches_resume |}.

Definition succeeded_at (t : Z) : ExecutionModel :=
  mkExecutionModel "sandbox" "development" "digits.train" "SUCCEEDED" t.
Definition failed_at (t : Z) : ExecutionModel :=
  mkExecutionModel "sandbox" "development" "digits.train" "FAILED" t.

(** Requests. *)
Definition train_locally : TrainRequest :=
  mkTrainRequest true None (BodyDict ∅).
Definition train_remotely : TrainRequest :=
  mkTrainRequest false None (BodyDict ∅).

Definition predict_locally (inputs : option Dict) : PredictRequest :=
  mkPredictRequest true None "latest" "local" inputs None.
Definition predict_from_remote_model (local : bool) : PredictRequest :=
  mkPredictRequest local None "latest" "remote" None None.

Definition next_batch : LabelRequest :=
  mkLabelRequest "session-1" 3 false (Some ∅) None.
Definition submit_labels : LabelRequest :=
  mkLabelRequest "session-1" 3 true (Some ∅) (Some []).
Definition next_batch_without_reader_inputs : LabelRequest :=
  mkLabelRequest "session-1" 3 false None None.

(** The state after the requests [reqs], served in order from the initial
    state. *)
Definition after {G} (E : Env G) (reqs : list Request) : State G :=
  fold_left (fun st req => state_after (handle E req st)) reqs initial_state.

(** A deployment whose gateway has no history; the state in which the
    first batch of [session-1] is awaiting its labels; the state in which
    they were submitted (the generator of the sample has then nothing left
    to yield). *)
Definition deployment : Env (list Value) := env [].
Definition awaiting_state : State (list Value) :=
  after deployment [Label next_batch].
Definition drained_state : State (list Value) :=
  after deployment [Label next_batch; Label submit_labels].

Definition train_workflow : FlyteWorkflow :=
  mkWorkflow (mkIdentifier "sandbox" "development" "digits.train" "v1").

End Sample.

(** ** A deployment with a scripted labeller *)

Module Scripted.

(** A generator that follows a script: at each resumption it yields the
    next batch of the script or raises the next message, and returns when
    the script is over. *)
Definition script_resume (script : list (Value + string)) (sent : Records)
  : GenOutcome (list (Value + string)) :=
  match script with
  | [] => GenReturn
  | inl batch :: rest => GenYield batch rest
  | inr msg :: _ => GenRaise msg
  end.

Definition env (script : list (Value + string)) : Env (list (Value + string)) :=
  {| train_workflow_name := "digits.train";
     predict_workflow_name := "digits.predict";
     predict_from_features_workflow_name := "digits.predict_from_features";
     model_train := fun _ => inr (Sample.trained, Sample.its_metrics);
     model_predict := fun _ => inr (VObj 3);
     py_str := fun _ => "LogisticRegression()";
     remote_fetch_workflow := fun name version =>
       inr (mkWorkflow (mkIdentifier "sandbox" "development" name
                          (default "v1" version)));
     remote_execute := fun _ _ => inl "no backend";
     client_list_executions_paginated := fun _ _ _ _ _ => inl "no backend";
     remote_sync := fun _ => inl "no backend";
     dataset_get_features := fun _ => inl "no features";
     dataset_labeller := fun _ _ _ => inr script;
     labeller_resume := script_resume |}.

(** Requests for [session-1], and one for another session. *)
Definition next_batch_with (batch_size : Z) (reader_inputs : option Dict)
  : LabelRequest :=
  mkLabelRequest "session-1" batch_size false reader_inputs None.
Definition submit : LabelRequest :=
  mkLabelRequest "session-1" 3 true None (Some []).
Definition next_batch_of_other_session : LabelRequest :=
  mkLabelRequest "session-2" 3 false (Some ∅) None.

(** The state after the first request for a batch of [session-1]. *)
Definition after_first_batch (script : list (Value + string))
  : State (list (Value + string)) :=
  state_after (_labeller_endpoint (env script) Sample.next_batch initial_state).

(** The state after a first request of [session-1] that submits: the session
    exists, its generator was not advanced. *)
Definition after_rejected_submit (script : list (Value + string))
  : State (list (Value + string)) :=
  state_after (_labeller_endpoint (env script) Sample.submit_labels initial_state).

(** Predict requests. *)
Definition predict_with_inputs_and_features : PredictRequest :=
  mkPredictRequest true None "latest" "local"
    (Some {[ "x" := VInt 1 ]}) (Some [ {[ "x" := VInt 2 ]} ]).
Definition predict_with_own_model : PredictRequest :=
  mkPredictRequest true None "latest" "local"
    (Some {[ "model" := VObj 99 ]}) None.
Definition predict_from_cache_named (source : string) : PredictRequest :=
  mkPredictRequest true None "latest" source (Some {[ "x" := VInt 1 ]}) None.
Definition predict_from_features : PredictRequest :=
  mkPredictRequest true None "latest" "local" None (Some [ {[ "x" := VInt 2 ]} ]).

(** A state whose Model Handle has a model in its cache. *)
Definition trained_state {G} : State G := mkState Sample.trained Sample.its_metrics ∅.

End Scripted.

(** ** Vocabulary for the calls of a run *)

(** Every call a computation makes satisfies [P], from whatever state. *)
Definition calls_all {G A} (P : Call -> bool) (m : M G A) : Prop :=
  forall st, forallb P (calls (m st)) = true.

Definition is_train_call (c : Call) : bool :=
  match c with CallTrain _ => true | _ => false end.

Definition is_get_features (c : Call) : bool :=
  match c with CallGetFeatures _ => true | _ => false end.

(** The calls that read the execution history of the gateway. *)
Definition is_history_call (c : Call) : bool :=
  match c with CallListExecutions _ _ _ _ _ | CallSync _ => true | _ => false end.

Definition is_labeller_call (c : Call) : bool :=
  match c with CallLabeller _ _ _ => true | _ => false end.

(** The calls that advance a labelling generator: [next] and [send]. *)
Definition is_advance (c : Call) : bool :=
  match c with CallNext _ | CallSend _ _ => true | _ => false end.

(** The dispatch of the train handler: a local train may not reach the
    gateway, a remote one may not call [model.train]. *)
Definition allowed_in_train (local : bool) (c : Call) : bool :=
  if local then negb (is_remote_call c) else negb (is_train_call c).

(** The dispatch of the predict handler: a local prediction may not execute
    a workflow, a remote one may not call [model.predict]. *)
Definition allowed_in_predict (local : bool) (c : Call) : bool :=
  if local then negb (is_execute c) else negb (is_local_predict c).

(** A fetch asks for the version [version]. *)
Definition fetches_version (version : option string) (c : Call) : bool :=
  match c with
  | CallFetchWorkflow _ v => bool_decide (v = version)
  | _ => true
  end.

(** A prediction, remote or local, is given [model] under the key "model". *)
Definition scores_with (model : Value) (c : Call) : bool :=
  match c with
  | CallExecute _ kwargs | CallPredict kwargs =>
      bool_decide (kwargs !! "model" = Some model)
  | _ => true
  end.

(** A prediction, remote or local, is given [features] under the key
    "features". *)
Definition given_features (features : Value) (c : Call) : bool :=
  match c with
  | CallExecute _ kwargs | CallPredict kwargs =>
      bool_decide (kwargs !! "features" = Some features)
  | _ => true
  end.

(** The request with its [features] dropped. *)
Definition without_features (req : PredictRequest) : PredictRequest :=
  mkPredictRequest (pr_local req) (pr_model_name req) (pr_model_version req)
    (pr_model_source req) (pr_inputs req) None.

(** ** The application the handlers are registered on *)

(** What a route serves: the landing page, a function as the caller wrote
    it (tagged or not), or the handler that [_app_decorator_wrapper]
    substituted for it. *)
Inductive EndpointFn : Type :=
| RootPage
| UserFunction (tag : option Endpoints)
| Substituted (reg : Registration).

Record Route : Type := mkRoute {
  route_verb : string;
  route_path : string;
  route_endpoint : EndpointFn
}.

(** A FastAPI application as far as this module uses it: its route table,
    and the registration methods that were replaced. *)
Record App : Type := mkApp {
  routes : list Route;
  replaced : list string
}.

(** What a registration can raise: an exception of the wrapper itself, the
    [AttributeError] of reading [fn.__app_method__] off a function that has
    none, or whatever pydantic or FastAPI raise. *)
Inductive RegistrationFailure : Type :=
| WrapperRaised (e : Exc)
| AttributeError (attribute : string)
| FrameworkRaised (callee : string).

(** The two library calls of a registration, which are not part of this
    module: whether pydantic's [create_model] accepts a declaration of
    fields (it takes some names as keywords of its own), and whether FastAPI
    accepts a route for a method and a path. *)
Record Framework : Type := mkFramework {
  create_model_accepts : list (string * PyType) -> bool;
  add_route_accepts : string -> string -> bool
}.

(** [app.<verb>(path)(fn)] on a method that was not replaced, and
    [decorator(endpoint_fn)] of line 212: FastAPI appends a route that
    serves the function, or raises. *)
Definition add_route (fw : Framework) (app : App) (verb path : string)
    (endpoint : EndpointFn) : RegistrationFailure + App :=
  if add_route_accepts fw verb path
  then inr (mkApp (routes app ++ [mkRoute verb path endpoint]) (replaced app))
  else inl (FrameworkRaised "add_api_route").

(** [app_wrapper(model, app)], lines 27-44, on an application whose methods
    are still its own: the landing page is registered through the original
    [app.get], then [get], [post] and [put] are replaced. *)
Definition app_wrapper (fw : Framework) (plain_routes : list Route)
  : RegistrationFailure + App :=
  match add_route fw (mkApp plain_routes []) "get" "/" RootPage with
  | inl failure => inl failure
  | inr app => inr (mkApp (routes app) ["get"; "post"; "put"])
  end.

(** [app.<verb>(path)(fn)], where [tag] is [fn.__app_method__] if [fn] has
    one.  Through a replaced method this is [_app_method_wrapper] and then
    the wrapper of [_app_decorator_wrapper] ([functools.wraps] keeps
    [__name__], so [app_method.__name__] is the verb): the check of the
    method (line 61), the lookup of the handler by the tag (lines 194-198),
    the model of the hyperparameters when the handler is the train handler
    and hyperparameters are declared (lines 200-210), and at last
    [decorator(endpoint_fn)] (line 212).  Through a method that was not
    replaced the function is registered as it is. *)
Definition register (fw : Framework) (hp : option (list (string * PyType)))
    (app : App) (verb path : string) (tag : option Endpoints)
  : RegistrationFailure + App :=
  if bool_decide (verb ∈ replaced app) then
    if negb (bool_decide (verb ∈ ["get"; "post"; "put"])) then
      inl (WrapperRaised
             (ValueError
                ("flytekit-learn only supports 'get' and 'post' methods: found "
                   ++ verb)))
    else
      match tag with
      | None => inl (AttributeError "__app_method__")
      | Some tag =>
          match registration_wrapper verb tag hp with
          | inl e => inl (WrapperRaised e)
          | inr reg =>
              match tag, hp with
              | TRAINER, Some ((_ :: _) as decl) =>
                  if create_model_accepts fw decl
                  then add_route fw app verb path (Substituted reg)
                  else inl (FrameworkRaised "create_model")
              | _, _ => add_route fw app verb path (Substituted reg)
              end
          end
      end
  else add_route fw app verb path (UserFunction tag).

(** The ways a registration through [get], [post] or [put] fails. *)
Definition registration_failure_cause (fw : Framework)
    (hp : option (list (string * PyType))) (verb path : string)
    (tag : option Endpoints) (failure : RegistrationFailure) : Prop :=
  (tag = None /\ failure = AttributeError "__app_method__")
  \/ (tag = Some EVALUATOR
      /\ failure = WrapperRaised (KeyError "Endpoints.EVALUATOR"))
  \/ (tag = Some TRAINER /\ declares_hyperparameters hp = true
      /\ create_model_accepts fw (default [] hp) = false
      /\ failure = FrameworkRaised "create_model")
  \/ (add_route_accepts fw verb path = false
      /\ failure = FrameworkRaised "add_api_route").

(** A framework that accepts every declaration and every route. *)
Definition permissive : Framework := mkFramework (fun _ => true) (fun _ _ => true).

(** ** A session whose generator a submit exhausts *)

Module Exhausted.

(** A labeller of one batch: the generator yields it and returns when it is
    resumed. *)
Definition script : list (Value + string) := [inl (VObj 100)].
Definition deployment : Env (list (Value + string)) := Scripted.env script.

(** The first request delivered the batch; [stuck_state] is the state after
    the submit of its labels. *)
Definition submitted : Run (list (Value + string)) Response :=
  _labeller_endpoint deployment Scripted.submit (Scripted.after_first_batch script).
Definition stuck_state : State (list (Value + string)) := state_after submitted.

(** The state after [n] further requests for the next batch. *)
Definition asked_again (n : nat) : State (list (Value + string)) :=
  Nat.iter n
    (fun st => state_after (_labeller_endpoint deployment Sample.next_batch st))
    stuck_state.

End Exhausted.

(** * Properties *)

Ltac unfold_M :=
  unfold mbind, M_bind, mret, M_ret, raise, call, returned, get_state,
    put_state, getitem, read_local in *.

(** Reduces the projections of a run, and nothing of the data it carries. *)
Ltac step :=
  cbn [result state_after calls fst snd app
       APP_LABELLER_CACHE _latest_model _metrics
       generator awaiting_submission session_complete].

(** ** Registration *)

Lemma replace_hyperparameters_train (HyperparameterModel : Annotation) :
  replace_hyperparameters train_endpoint_signature HyperparameterModel
  = train_endpoint_signature.
Proof. reflexivity. Qed.

(** The model that [create_model] builds does have one required field per
    declared hyperparameter, of the declared type. *)
Lemma create_HyperparameterModel_fields (hp : list (string * PyType)) k v :
  In (k, v) hp ->
  exists fields,
    create_HyperparameterModel hp = PydanticModel "HyperparameterModel" fields
    /\ In (k, (v, Required)) fields.
Proof.
  intros Hin. eexists; split; [reflexivity|].
  apply in_map_iff. exists (k, v). split; [reflexivity | assumption].
Qed.

(** C1.  The claim is that declared hyperparameters shape the schema the
    train handler accepts.  They do not: the model is built, but the
    replacement looks for a parameter named [hyperparameters], and the
    handler's body parameter is named [inputs].  Whatever is declared, the
    registered train handler keeps its signature as written, and the schema
    of its body stays the untyped [Dict]. *)
Theorem train_schema_ignores_hyperparameters :
  (forall hp, shaped_train_signature hp = train_endpoint_signature)
  /\ (forall hp,
        accepted_input_schema (shaped_train_signature hp) = Some (Plain TyDict))
  /\ (let hp := [("max_iter", TyInt); ("C", TyFloat)] in
      declares_hyperparameters (Some hp) = true
      /\ registration_wrapper "post" TRAINER (Some hp)
         = inr (mkRegistration TRAINER train_endpoint_signature)
      /\ accepted_input_schema train_endpoint_signature
         <> Some (create_HyperparameterModel hp)).
Proof.
  split; [|split].
  - intros [[|kv hp]|]; reflexivity.
  - intros [[|kv hp]|]; reflexivity.
  - repeat split. discriminate.
Qed.

(** ** Runs of composed handlers *)

Section Runs.

Context {G : Type}.

Lemma result_bind {A B} (m : M G A) (k : A -> M G B) st :
  result ((m ≫= k) st) =
    match result (m st) with
    | inl e => inl e
    | inr a => result (k a (state_after (m st)))
    end.
Proof.
  unfold mbind, M_bind. destruct (m st) as [[e|a] st' cs]; [reflexivity|].
  step. destruct (k a st'); reflexivity.
Qed.

Lemma state_after_bind {A B} (m : M G A) (k : A -> M G B) st :
  state_after ((m ≫= k) st) =
    match result (m st) with
    | inl _ => state_after (m st)
    | inr a => state_after (k a (state_after (m st)))
    end.
Proof.
  unfold mbind, M_bind. destruct (m st) as [[e|a] st' cs]; [reflexivity|].
  step. destruct (k a st'); reflexivity.
Qed.

Lemma calls_bind {A B} (m : M G A) (k : A -> M G B) st :
  calls ((m ≫= k) st) =
    (calls (m st) ++
     match result (m st) with
     | inl _ => []
     | inr a => calls (k a (state_after (m st)))
     end)%list.
Proof.
  unfold mbind, M_bind. destruct (m st) as [[e|a] st' cs].
  - step. symmetry. apply app_nil_r.
  - step. destruct (k a st'); reflexivity.
Qed.

Lemma preserves_bind {A B} (m : M G A) (k : A -> M G B) :
  preserves_state m -> (forall a, preserves_state (k a)) ->
  preserves_state (m ≫= k).
Proof.
  intros Hm Hk st. rewrite state_after_bind.
  destruct (result (m st)); rewrite Hm; [reflexivity | apply Hk].
Qed.

Lemma preserves_ret {A} (a : A) : preserves_state (mret a : M G A).
Proof. intros st. reflexivity. Qed.

Lemma preserves_raise {A} e : preserves_state (raise e : M G A).
Proof. intros st. reflexivity. Qed.

Lemma preserves_call {A} c wrap (r : string + A) :
  preserves_state (call c wrap r : M G A).
Proof. intros st. reflexivity. Qed.

Lemma preserves_get_state : preserves_state (get_state : M G (State G)).
Proof. intros st. reflexivity. Qed.

Lemma preserves_getitem d key : preserves_state (getitem d key : M G Value).
Proof. unfold getitem. destruct (d !! key); intros st; reflexivity. Qed.

Lemma preserves_read_local {A} var (x : option A) :
  preserves_state (read_local var x : M G A).
Proof. destruct x; intros st; reflexivity. Qed.

End Runs.

Create HintDb frame.
#[local] Hint Resolve preserves_ret preserves_raise preserves_call
  preserves_get_state preserves_getitem preserves_read_local : frame.

Ltac frame :=
  repeat first
    [ apply preserves_bind; [| intros ?]
    | solve [auto with frame]
    | match goal with
      | |- preserves_state (match ?x with _ => _ end) => destruct x
      | |- preserves_state (let '(_, _) := ?x in _) => destruct x
      end ].

(** ** The train handler and the cache of the Model Handle *)

Section TrainProperties.

Context {G : Type}.
Variable E : Env G.

Lemma train_remote_frame req :
  tr_local req = false -> preserves_state (_train_endpoint E req).
Proof.
  intros Hl. unfold _train_endpoint. rewrite Hl. cbn [negb]. frame.
Qed.

Lemma train_local_run req st :
  tr_local req = true ->
  _train_endpoint E req st =
    match model_train E (as_dict (tr_inputs req)) with
    | inr (trained_model, metrics) =>
        mkRun (inr (TrainResponse (py_str E trained_model) metrics))
          (mkState trained_model metrics (APP_LABELLER_CACHE st))
          [CallTrain (as_dict (tr_inputs req))]
    | inl msg =>
        mkRun (inl (ProviderError msg)) st [CallTrain (as_dict (tr_inputs req))]
    end.
Proof.
  intros Hl. unfold _train_endpoint, set_latest. rewrite Hl. unfold_M. step.
  destruct (model_train E _) as [msg|[m k]]; reflexivity.
Qed.

Lemma train_sessions_frame req st :
  APP_LABELLER_CACHE (state_after (_train_endpoint E req st))
  = APP_LABELLER_CACHE st.
Proof.
  destruct (tr_local req) eqn:Hl.
  - rewrite train_local_run by assumption.
    destruct (model_train E _) as [msg|[m k]]; reflexivity.
  - rewrite train_remote_frame by assumption. reflexivity.
Qed.

Lemma resolve_model_frame req version :
  preserves_state (resolve_model E req version).
Proof. unfold resolve_model. frame. Qed.

Lemma build_workflow_inputs_frame req version latest_model :
  preserves_state (build_workflow_inputs E req version latest_model).
Proof. unfold build_workflow_inputs. frame. Qed.

Lemma predict_frame req : preserves_state (_predict_endpoint E req).
Proof.
  unfold _predict_endpoint.
  apply preserves_bind; [apply resolve_model_frame | intros m].
  apply preserves_bind; [apply build_workflow_inputs_frame | intros [wi wf]].
  frame.
Qed.

End TrainProperties.

(** ** The labelling handler, entry by entry *)

Section LabellerRuns.

Context {G : Type}.
Variable E : Env G.

(** When the entry exists or can be created, the handler does to it what
    [serve_entry] says, and touches nothing else. *)
Lemma labeller_on_entry req st entry :
  working_entry E req st = Some entry ->
  let r := _labeller_endpoint E req st in
  let out := serve_entry E entry (lr_submit req) (lr_submission req) in
  result r = out.2
  /\ state_after r
     = with_sessions st (<[lr_session_id req := out.1]> (APP_LABELLER_CACHE st)).
Proof.
  unfold working_entry, _labeller_endpoint, open_session, serve_entry,
    advance_generator, update_entry, try_except_StopIteration, with_sessions.
  unfold_M. step.
  destruct (APP_LABELLER_CACHE st !! lr_session_id req) as [s|] eqn:Hs.
  - intros [= ->]. step.
    destruct (lr_submit req), (awaiting_submission entry) eqn:Ha; cbn [negb]; step.
    2,3: split; [reflexivity|]; destruct st as [lm mt table]; cbn in Hs |- *;
         f_equal; symmetry; apply insert_id; exact Hs.
    all: destruct (advance E (generator entry) _) as [g' [e|v]]; step.
    all: try destruct e; step.
    all: split; [reflexivity|].
    all: f_equal; apply map_eq; intros k; step;
      rewrite ?lookup_alter, ?lookup_insert;
      repeat case_decide; subst; step;
      rewrite ?lookup_alter, ?decide_True by reflexivity;
      rewrite ?Hs; cbn [fmap option_fmap option_map]; step;
      try reflexivity; try congruence.
  - destruct (lr_reader_inputs req) as [kw|]; [|discriminate].
    step. destruct (dataset_labeller E _ _ kw) as [msg|body]; [discriminate|].
    intros [= <-]. step.
    destruct (lr_submit req); cbn [negb awaiting_submission generator]; step.
    + split; reflexivity.
    + unfold advance, resume.
      destruct (labeller_resume E body None) as [b rest| |msg]; step.
      all: split; [reflexivity|].
      all: f_equal; apply map_eq; intros k; step;
        rewrite ?lookup_alter, ?lookup_insert;
        repeat case_decide; subst; step;
        rewrite ?lookup_alter, ?decide_True by reflexivity;
        rewrite ?lookup_insert_eq; cbn [fmap option_fmap option_map]; step;
        try reflexivity; try congruence.
Qed.

(** When the entry neither exists nor can be created, the handler raises
    what the creation raised and leaves the state alone. *)
Lemma labeller_without_entry req st :
  working_entry E req st = None ->
  let r := _labeller_endpoint E req st in
  state_after r = st
  /\ ((lr_reader_inputs req = None
       /\ result r = inl (TypeError "argument after ** must be a mapping, not NoneType")
       /\ calls r = [])
      \/ exists kwargs msg,
           lr_reader_inputs req = Some kwargs
           /\ result r = inl (ProviderError msg)).
Proof.
  unfold working_entry, _labeller_endpoint, open_session.
  unfold_M. step.
  destruct (APP_LABELLER_CACHE st !! lr_session_id req) as [s|]; [discriminate|].
  destruct (lr_reader_inputs req) as [kw|]; step.
  - destruct (dataset_labeller E _ _ kw) as [msg|body]; [|discriminate].
    intros _. step. split; [reflexivity|]. right. eauto.
  - intros _. split; [reflexivity|]. left. auto.
Qed.

Lemma working_entry_found req st entry :
  APP_LABELLER_CACHE st !! lr_session_id req = Some entry ->
  working_entry E req st = Some entry.
Proof. intros H. unfold working_entry. rewrite H. reflexivity. Qed.

(** The handler never touches the cache slots of the Model Handle. *)
Lemma labeller_cache_frame req st :
  cache_slots (state_after (_labeller_endpoint E req st)) = cache_slots st.
Proof.
  destruct (working_entry E req st) as [entry|] eqn:Hw.
  - destruct (labeller_on_entry req st entry Hw) as [_ ->]. reflexivity.
  - destruct (labeller_without_entry req st Hw) as [-> _]. reflexivity.
Qed.

(** Nor the entries of other sessions. *)
Lemma labeller_other_sessions req st sid :
  sid <> lr_session_id req ->
  APP_LABELLER_CACHE (state_after (_labeller_endpoint E req st)) !! sid
  = APP_LABELLER_CACHE st !! sid.
Proof.
  intros Hne.
  destruct (working_entry E req st) as [entry|] eqn:Hw.
  - destruct (labeller_on_entry req st entry Hw) as [_ ->].
    cbn [with_sessions APP_LABELLER_CACHE].
    rewrite lookup_insert_ne by congruence. reflexivity.
  - destruct (labeller_without_entry req st Hw) as [-> _]. reflexivity.
Qed.

End LabellerRuns.

(** ** What holds of every session in every reachable state *)

Section SessionInvariant.

Context {G : Type}.
Variable E : Env G.

Lemma advance_exhausted g sent :
  (advance E g sent).2 = inl StopIteration -> (advance E g sent).1 = GenClosed.
Proof.
  unfold advance, resume.
  destruct g as [body|body|]; [destruct sent| |];
    try destruct (labeller_resume E body _); cbn [fst snd];
    congruence.
Qed.

Lemma advance_yielded g sent batch :
  (advance E g sent).2 = inr batch ->
  exists rest, (advance E g sent).1 = GenSuspended rest.
Proof.
  unfold advance, resume.
  destruct g as [body|body|]; [destruct sent| |];
    try destruct (labeller_resume E body _); cbn [fst snd];
    try discriminate; eauto.
Qed.

Lemma advance_after_start g sent :
  started g = true -> started (advance E g sent).1 = true.
Proof.
  destruct g as [body|body|]; [discriminate| |reflexivity].
  intros _. unfold advance, resume.
  destruct (labeller_resume E body sent); reflexivity.
Qed.

Lemma fresh_entry_ok (body : G) :
  entry_ok (mkSession (GenCreated body) false false).
Proof. split; cbn; discriminate. Qed.

Lemma serve_entry_ok s submit submission :
  entry_ok s -> entry_ok (serve_entry E s submit submission).1.
Proof.
  destruct s as [g a c]. unfold entry_ok, serve_entry.
  cbn [generator awaiting_submission session_complete].
  intros [Hc Ha]. destruct submit, a; cbn [negb fst]; try (split; assumption).
  - (* submit, a batch is awaiting: the session is not complete *)
    assert (c = false) as ->
      by (destruct c; [destruct (Hc eq_refl); discriminate | reflexivity]).
    pose proof (advance_after_start g submission (Ha eq_refl)) as Hg'.
    destruct (advance E g submission) as [g' [e|v]]; cbn [fst snd] in *;
      cbn [generator awaiting_submission session_complete];
      split; try discriminate; auto.
  - (* next batch on a session that awaits nothing *)
    pose proof (advance_exhausted g None) as Hex.
    pose proof (advance_yielded g None) as Hy.
    assert (Hkeep : c = true -> advance E g None = (GenClosed, inl StopIteration)).
    { intros Hs. destruct (Hc Hs) as [_ ->]. reflexivity. }
    destruct (advance E g None) as [g' [e|v]]; cbn [fst snd] in *.
    + destruct e; cbn [fst generator awaiting_submission session_complete];
        split; try discriminate; auto.
      all: intros Hs; specialize (Hkeep Hs); congruence.
    + destruct (Hy v eq_refl) as [rest ->].
      cbn [generator awaiting_submission session_complete].
      split; [|reflexivity].
      intros Hs; specialize (Hkeep Hs); congruence.
Qed.

Lemma sessions_after_handle req st sid s' :
  APP_LABELLER_CACHE (state_after (handle E req st)) !! sid = Some s' ->
  APP_LABELLER_CACHE st !! sid = Some s'
  \/ exists r entry,
       req = Label r /\ sid = lr_session_id r
       /\ working_entry E r st = Some entry
       /\ s' = (serve_entry E entry (lr_submit r) (lr_submission r)).1.
Proof.
  destruct req as [r|r|r]; cbn [handle].
  - rewrite train_sessions_frame. auto.
  - rewrite predict_frame. auto.
  - destruct (decide (sid = lr_session_id r)) as [->|Hne].
    + destruct (working_entry E r st) as [entry|] eqn:Hw.
      * destruct (labeller_on_entry E r st entry Hw) as [_ ->].
        cbn [with_sessions APP_LABELLER_CACHE]. rewrite lookup_insert_eq.
        intros [= <-]. right. eauto 10.
      * destruct (labeller_without_entry E r st Hw) as [-> _]. auto.
    + rewrite labeller_other_sessions by assumption. auto.
Qed.

Lemma working_entry_ok req st entry :
  (forall sid s, APP_LABELLER_CACHE st !! sid = Some s -> entry_ok s) ->
  working_entry E req st = Some entry -> entry_ok entry.
Proof.
  intros Hall. unfold working_entry.
  destruct (APP_LABELLER_CACHE st !! lr_session_id req) as [s|] eqn:Hs.
  - intros [= <-]. eauto.
  - destruct (lr_reader_inputs req) as [kw|]; [|discriminate].
    destruct (dataset_labeller E _ _ kw); [discriminate|].
    intros [= <-]. apply fresh_entry_ok.
Qed.

Lemma reachable_entries_ok st :
  reachable E st ->
  forall sid s, APP_LABELLER_CACHE st !! sid = Some s -> entry_ok s.
Proof.
  induction 1 as [|st req Hreach IH]; intros sid s Hs.
  - cbn in Hs. rewrite lookup_empty in Hs. discriminate.
  - apply sessions_after_handle in Hs as [Hs|(r & entry & -> & -> & Hw & ->)].
    + eauto.
    + apply serve_entry_ok. eapply working_entry_ok; eauto.
Qed.

End SessionInvariant.

(** ** The labelling protocol *)

Section LabellerProperties.

Context {G : Type}.
Variable E : Env G.

Lemma advance_not_http g sent status detail :
  (advance E g sent).2 <> inl (HTTPException status detail).
Proof.
  unfold advance, resume.
  destruct g as [body|body|]; [destruct sent| |];
    try destruct (labeller_resume E body _); cbn [snd]; discriminate.
Qed.

(** A request is rejected with one of the two sequencing errors only in the
    two guarded branches, which leave the entry as it is. *)
Lemma serve_entry_rejected s submit submission status detail :
  (serve_entry E s submit submission).2 = inl (HTTPException status detail) ->
  (serve_entry E s submit submission).1 = s
  /\ ((submit = true /\ awaiting_submission s = false
       /\ HTTPException status detail = NoSubmissionExpected)
      \/ (submit = false /\ awaiting_submission s = true
          /\ HTTPException status detail = SubmissionPending)).
Proof.
  unfold serve_entry.
  destruct submit, (awaiting_submission s) eqn:Ha; cbn [negb fst snd].
  - pose proof (advance_not_http (generator s) submission status detail) as Hn.
    destruct (advance E (generator s) submission) as [g' [e|v]];
      cbn [fst snd] in *; congruence.
  - intros [= <- <-]. auto.
  - intros [= <- <-]. auto.
  - pose proof (advance_not_http (generator s) None status detail) as Hn.
    destruct (advance E (generator s) None) as [g' [e|v]];
      cbn [fst snd] in *; [|discriminate].
    destruct e; cbn [snd]; congruence.
Qed.

Lemma with_sessions_same (st : State G) :
  with_sessions st (APP_LABELLER_CACHE st) = st.
Proof. destruct st; reflexivity. Qed.

(** C10.  A first request for a session that carries no [reader_inputs]
    fails while the generator is being constructed: [**reader_inputs]
    raises [TypeError] before the Dataset Provider is called, nothing is
    stored, and the table still has no entry for the session. *)
Theorem first_request_needs_reader_inputs (st : State G) (req : LabelRequest) :
  APP_LABELLER_CACHE st !! lr_session_id req = None ->
  lr_reader_inputs req = None ->
  let r := _labeller_endpoint E req st in
  result r = inl (TypeError "argument after ** must be a mapping, not NoneType")
  /\ calls r = []
  /\ state_after r = st
  /\ APP_LABELLER_CACHE (state_after r) !! lr_session_id req = None.
Proof.
  intros Hs Hr r.
  assert (Hw : working_entry E req st = None).
  { unfold working_entry. rewrite Hs, Hr. reflexivity. }
  destruct (labeller_without_entry E req st Hw)
    as [Hst [(_ & Hres & Hcalls)|(kw & msg & Hkw & _)]]; [|congruence].
  subst r. rewrite Hst. auto.
Qed.

(** C2, as the code has it.  A request rejected with [SubmissionPending] or
    [NoSubmissionExpected] for a session that is in the table leaves the
    whole state as it was.  When the rejected request is the first one for
    its session, the rejection is [NoSubmissionExpected] and the session
    has been initialised by then: the table gains an entry for it, with a
    generator that was not started and both flags false.  The entries of
    all other sessions are as before in both cases. *)
Theorem rejection_leaves_sessions (st : State G) (req : LabelRequest) (e : Exc) :
  result (_labeller_endpoint E req st) = inl e ->
  e = SubmissionPending \/ e = NoSubmissionExpected ->
  let r := _labeller_endpoint E req st in
  (is_Some (APP_LABELLER_CACHE st !! lr_session_id req) -> state_after r = st)
  /\ (APP_LABELLER_CACHE st !! lr_session_id req = None ->
      e = NoSubmissionExpected /\ lr_submit req = true
      /\ exists body,
           APP_LABELLER_CACHE (state_after r)
           = <[lr_session_id req := mkSession (GenCreated body) false false]>
               (APP_LABELLER_CACHE st))
  /\ (forall sid, sid <> lr_session_id req ->
        APP_LABELLER_CACHE (state_after r) !! sid
        = APP_LABELLER_CACHE st !! sid)
  /\ cache_slots (state_after r) = cache_slots st.
Proof.
  intros Hres He r. subst r.
  split; [|split; [|split]].
  3: { intros sid Hne. apply labeller_other_sessions. assumption. }
  3: apply labeller_cache_frame.
  all: destruct (working_entry E req st) as [entry|] eqn:Hw.
  2,4: destruct (labeller_without_entry E req st Hw)
         as [_ [(_ & Hr & _)|(kw & msg & _ & Hr)]];
       rewrite Hr in Hres; destruct He; subst e; discriminate.
  all: destruct (labeller_on_entry E req st entry Hw) as [Hr Hst];
    rewrite Hr in Hres.
  all: assert (exists status detail, e = HTTPException status detail)
         as (status & detail & ->) by (destruct He; subst e; eauto).
  all: apply serve_entry_rejected in Hres as [Hsame Hwhich].
  all: rewrite Hst, Hsame.
  - intros [s Hs]. rewrite (working_entry_found E req st s Hs) in Hw.
    injection Hw as <-. rewrite insert_id by assumption.
    apply with_sessions_same.
  - intros Hs. unfold working_entry in Hw. rewrite Hs in Hw.
    destruct (lr_reader_inputs req) as [kw|]; [|discriminate].
    destruct (dataset_labeller E _ _ kw) as [msg|body]; [discriminate|].
    injection Hw as <-.
    destruct Hwhich as [(Hsub & _ & Hexc)|(_ & Haw & _)]; [|discriminate].
    repeat split; eauto.
Qed.

(** C5.  For a session that is initialised (its entry is in the table, or
    this request has just created it) and not complete: a request for the
    next batch is rejected with [SubmissionPending] exactly when a batch is
    awaiting submission, and a submit is rejected with
    [NoSubmissionExpected] exactly when none is.  So a request for the next
    batch that follows one that delivered a batch is rejected, a submit
    that follows an accepted submit is rejected, and a submit to a session
    whose generator was never advanced (no batch was ever requested) is
    rejected. *)
Theorem turn_taking (st : State G) (req : LabelRequest) (s : Session G) :
  working_entry E req st = Some s ->
  session_complete s = false ->
  let r := _labeller_endpoint E req st in
  (lr_submit req = false ->
   (result r = inl SubmissionPending <-> awaiting_submission s = true))
  /\ (lr_submit req = true ->
      (result r = inl NoSubmissionExpected <-> awaiting_submission s = false))
  /\ (forall req' batch,
        lr_session_id req' = lr_session_id req ->
        lr_submit req = false -> lr_submit req' = false ->
        result r = inr (BatchResponse batch false) ->
        result (_labeller_endpoint E req' (state_after r)) = inl SubmissionPending)
  /\ (forall req' ok,
        lr_session_id req' = lr_session_id req ->
        lr_submit req = true -> lr_submit req' = true ->
        result r = inr (SubmitResponse ok false) ->
        result (_labeller_endpoint E req' (state_after r))
        = inl NoSubmissionExpected)
  /\ (reachable E st -> lr_submit req = true ->
      started (generator s) = false ->
      result r = inl NoSubmissionExpected).
Proof.
  intros Hw Hnc r.
  destruct (labeller_on_entry E req st s Hw) as [Hr Hst]. fold r in Hr, Hst.
  assert (Hnext : forall req',
             lr_session_id req' = lr_session_id req ->
             result (_labeller_endpoint E req' (state_after r))
             = (serve_entry E (serve_entry E s (lr_submit req) (lr_submission req)).1
                  (lr_submit req') (lr_submission req')).2).
  { intros req' Hid.
    apply (labeller_on_entry E req' (state_after r)).
    rewrite Hst. unfold working_entry.
    cbn [with_sessions APP_LABELLER_CACHE]. rewrite Hid, lookup_insert_eq.
    reflexivity. }
  split; [|split; [|split; [|split]]].
  - intros Hsub. rewrite Hr, Hsub. unfold serve_entry, SubmissionPending. split.
    + intros Hrej.
      destruct (awaiting_submission s); [reflexivity|].
      pose proof (advance_not_http (generator s) None 400
                    "Awaiting labels from current batch") as Hn.
      destruct (advance E (generator s) None) as [g' [e|v]];
        cbn [fst snd] in *; [|discriminate].
      destruct e; cbn [snd] in Hrej; congruence.
    + intros ->. reflexivity.
  - intros Hsub. rewrite Hr, Hsub. unfold serve_entry, NoSubmissionExpected. split.
    + intros Hrej.
      destruct (awaiting_submission s); [|reflexivity]. cbn [negb] in Hrej.
      pose proof (advance_not_http (generator s) (lr_submission req) 400
                    "Labels already submitted for current batch") as Hn.
      destruct (advance E (generator s) (lr_submission req)) as [g' [e|v]];
        cbn [fst snd] in *; congruence.
    + intros ->. reflexivity.
  - intros req' batch Hid Hsub Hsub' Hbatch.
    rewrite (Hnext req' Hid), Hsub'. rewrite Hr, Hsub in Hbatch.
    rewrite Hsub. unfold serve_entry at 2. unfold serve_entry in Hbatch.
    destruct (awaiting_submission s); [discriminate|].
    destruct (advance E (generator s) None) as [g' [e|v]]; cbn [fst snd] in *.
    + destruct e; cbn [snd] in Hbatch; discriminate.
    + reflexivity.
  - intros req' ok Hid Hsub Hsub' Hok.
    rewrite (Hnext req' Hid), Hsub'. rewrite Hr, Hsub in Hok.
    rewrite Hsub. unfold serve_entry at 2. unfold serve_entry in Hok.
    destruct (awaiting_submission s); cbn [negb] in *; [|discriminate].
    destruct (advance E (generator s) (lr_submission req)) as [g' [e|v]];
      cbn [fst snd] in *; [discriminate|].
    reflexivity.
  - intros Hreach Hsub Hfresh. rewrite Hr, Hsub. unfold serve_entry.
    assert (Hok : entry_ok s).
    { eapply working_entry_ok; [|exact Hw].
      apply (reachable_entries_ok E). assumption. }
    destruct Hok as [_ Ha].
    destruct (awaiting_submission s); [|reflexivity].
    rewrite Ha in Hfresh by reflexivity. discriminate.
Qed.

(** Where exhaustion is met by [next], the handler does complete the
    session.  A request makes a session complete exactly when it asks for the
    next batch, no batch is awaiting submission and advancing the generator
    signals exhaustion; the response is then [{batch: null,
    session_complete: true}].  A complete session stays complete whatever
    is requested, so this happens once; and from then on every request for
    the next batch gets the same response and leaves the state as it is. *)
Theorem session_completes_once (st : State G) (req : LabelRequest) (s : Session G) :
  working_entry E req st = Some s ->
  let r := _labeller_endpoint E req st in
  exists s',
    APP_LABELLER_CACHE (state_after r) !! lr_session_id req = Some s'
    /\ (session_complete s = false ->
        (session_complete s' = true <->
         lr_submit req = false /\ awaiting_submission s = false
         /\ (advance E (generator s) None).2 = inl StopIteration)
        /\ (session_complete s' = true ->
            result r = inr (BatchResponse VNone true)))
    /\ (session_complete s = true -> session_complete s' = true)
    /\ (reachable E st -> session_complete s = true -> lr_submit req = false ->
        result r = inr (BatchResponse VNone true) /\ state_after r = st).
Proof.
  intros Hw r.
  destruct (labeller_on_entry E req st s Hw) as [Hr Hst]. fold r in Hr, Hst.
  exists (serve_entry E s (lr_submit req) (lr_submission req)).1.
  split; [|split; [|split]].
  - rewrite Hst. cbn [with_sessions APP_LABELLER_CACHE].
    apply lookup_insert_eq.
  - intros Hnc. rewrite Hr. unfold serve_entry.
    destruct (lr_submit req), (awaiting_submission s); cbn [negb fst snd].
    + destruct (advance E (generator s) (lr_submission req)) as [g' [e|v]];
        cbn [fst snd session_complete]; rewrite Hnc;
        (split; [split|]); (discriminate || (intros (? & ? & ?); discriminate)).
    + rewrite Hnc.
      split; [split|]; (discriminate || (intros (? & ? & ?); discriminate)).
    + rewrite Hnc.
      split; [split|]; (discriminate || (intros (? & ? & ?); discriminate)).
    + destruct (advance E (generator s) None) as [g' [e|v]]; cbn [fst snd].
      * destruct e; cbn [fst snd session_complete]; rewrite ?Hnc;
          (split; [split|]); auto;
          (discriminate || (intros (? & ? & ?); discriminate)).
      * cbn [session_complete]. rewrite Hnc.
        split; [split|]; (discriminate || (intros (? & ? & ?); discriminate)).
  - intros Hc. unfold serve_entry.
    destruct (lr_submit req), (awaiting_submission s); cbn [negb fst]; auto.
    + destruct (advance E (generator s) (lr_submission req)) as [g' [e|v]];
        cbn [fst snd session_complete]; assumption.
    + destruct (advance E (generator s) None) as [g' [e|v]]; cbn [fst snd].
      * destruct e; cbn [fst session_complete]; auto.
      * cbn [session_complete]. assumption.
  - intros Hreach Hc Hsub.
    assert (Hok : entry_ok s).
    { eapply working_entry_ok; [|exact Hw].
      apply (reachable_entries_ok E). assumption. }
    destruct Hok as [Hclosed _]. destruct (Hclosed Hc) as [Ha Hg].
    assert (Hin : APP_LABELLER_CACHE st !! lr_session_id req = Some s).
    { unfold working_entry in Hw.
      destruct (APP_LABELLER_CACHE st !! lr_session_id req); [assumption|].
      destruct (lr_reader_inputs req) as [kw|]; [|discriminate].
      destruct (dataset_labeller E _ _ kw); [discriminate|].
      injection Hw as <-. discriminate. }
    assert (Hout : serve_entry E s false (lr_submission req)
                   = (s, inr (BatchResponse VNone true))).
    { unfold serve_entry. rewrite Ha, Hg. cbn [advance fst snd].
      destruct s as [g a c]; cbn in *; subst. reflexivity. }
    rewrite Hr, Hst, Hsub, Hout. cbn [fst snd]. split; [reflexivity|].
    rewrite insert_id by assumption. apply with_sessions_same.
Qed.

(** C9.  In every state the service can reach, every session is in exactly
    one of the three conditions: a batch is awaiting submission, the
    session is complete, or it is ready for the next batch.  The two flags
    are never both set. *)
Theorem one_condition_at_a_time (st : State G) (sid : string) (s : Session G) :
  reachable E st ->
  APP_LABELLER_CACHE st !! sid = Some s ->
  exactly_one (batch_awaiting_submission s) (is_complete s)
    (ready_for_next_batch s) = true
  /\ ~ (awaiting_submission s = true /\ session_complete s = true).
Proof.
  intros Hreach Hs.
  destruct (reachable_entries_ok E st Hreach sid s Hs) as [Hc _].
  unfold batch_awaiting_submission, is_complete, ready_for_next_batch.
  destruct (session_complete s).
  - destruct (Hc eq_refl) as [-> _]. split; [reflexivity|].
    intros [? _]; discriminate.
  - destruct (awaiting_submission s); (split; [reflexivity|]);
      intros [_ ?]; discriminate.
Qed.

End LabellerProperties.

(** ** The predict handler *)

Section PredictProperties.

Context {G : Type}.
Variable E : Env G.

(** Model resolution from the local cache. *)
Lemma resolve_model_local req version st :
  String.eqb (pr_model_source req) "remote" = false ->
  resolve_model E req version st =
    if is_None (_latest_model st)
    then mkRun (inl ModelNotTrained) st []
    else mkRun (inr (_latest_model st)) st [].
Proof.
  intros Hsrc. unfold resolve_model. rewrite Hsrc. unfold_M. step.
  destruct (is_None (_latest_model st)); reflexivity.
Qed.

(** Model resolution through the gateway, call by call. *)
Lemma resolve_model_remote req version st :
  String.eqb (pr_model_source req) "remote" = true ->
  let name := train_workflow_of E req in
  let fetch := CallFetchWorkflow name version in
  match remote_fetch_workflow E name version with
  | inl msg => resolve_model E req version st = mkRun (inl (RemoteError msg)) st [fetch]
  | inr wf =>
      let filters := [ Equal "launch_plan.name" (id_name (wf_id wf));
                       Equal "phase" "SUCCEEDED" ] in
      let sort_by := mkSort "created_at" DESCENDING in
      let project := id_project (wf_id wf) in
      let domain := id_domain (wf_id wf) in
      let listing := CallListExecutions project domain 1 filters sort_by in
      match client_list_executions_paginated E project domain 1 filters sort_by with
      | inl msg =>
          resolve_model E req version st
          = mkRun (inl (RemoteError msg)) st [fetch; listing]
      | inr ([], _) =>
          resolve_model E req version st
          = mkRun (inl NoTrainedModelFound) st [fetch; listing]
      | inr (x :: _, _) =>
          exists r,
            resolve_model E req version st
            = mkRun r st [fetch; listing; CallSync (promote_from_model x)]
            /\ r <> inl NoTrainedModelFound
      end
  end.
Proof.
  intros Hsrc name fetch. subst name fetch.
  unfold resolve_model, train_workflow_of. rewrite Hsrc. unfold_M. step.
  destruct (remote_fetch_workflow E _ version) as [msg|wf]; [reflexivity|].
  step.
  destruct (client_list_executions_paginated E _ _ 1 _ _) as [msg|[page token]];
    [reflexivity|].
  step. destruct page as [|x page]; [reflexivity|]. step.
  destruct (remote_sync E (promote_from_model x)) as [msg|synced]; step.
  - eexists; split; [reflexivity | discriminate].
  - destruct (outputs synced !! "trained_model");
      eexists; (split; [reflexivity | discriminate]).
Qed.

(** The request after the model is resolved, when neither [inputs] nor
    [features] is supplied: no branch binds [predict_wf]. *)
Lemma run_without_inputs req st :
  truthy_dict (pr_inputs req) = false ->
  truthy_list (pr_features req) = false ->
  _predict_endpoint E req st =
    match resolve_model E req (requested_version req) st with
    | mkRun (inl e) st' cs => mkRun (inl e) st' cs
    | mkRun (inr latest_model) st' cs =>
        if pr_local req then
          mkRun (match model_predict E {[ "model" := latest_model ]} with
                 | inl msg => inl (ProviderError msg)
                 | inr predictions => inr (PredictResponse predictions)
                 end) st' (cs ++ [CallPredict {[ "model" := latest_model ]}])
        else mkRun (inl (UnboundLocalError "predict_wf")) st' (cs ++ [])
    end.
Proof.
  intros Hi Hf. unfold _predict_endpoint, build_workflow_inputs.
  rewrite Hi, Hf. fold (requested_version req). unfold_M.
  destruct (resolve_model E req (requested_version req) st) as [[e|m] st' cs];
    [reflexivity|].
  step. destruct (pr_local req); cbn [negb]; step; [|reflexivity].
  destruct (model_predict E _); reflexivity.
Qed.

(** The request after the model is resolved, when [inputs] is supplied:
    the predict workflow is fetched whether or not the prediction runs
    remotely. *)
Lemma run_with_inputs req st d :
  pr_inputs req = Some d ->
  truthy_dict (Some d) = true ->
  pr_local req = true ->
  let version := requested_version req in
  let name := workflow_name (pr_model_name req) "predict_workflow_name"
                (predict_workflow_name E) in
  _predict_endpoint E req st =
    match resolve_model E req version st with
    | mkRun (inl e) st' cs => mkRun (inl e) st' cs
    | mkRun (inr latest_model) st' cs =>
        let workflow_inputs : Dict := d ∪ {[ "model" := latest_model ]} in
        match remote_fetch_workflow E name version with
        | inl msg =>
            mkRun (inl (RemoteError msg)) st'
              (cs ++ [CallFetchWorkflow name version])
        | inr _ =>
            mkRun (match model_predict E workflow_inputs with
                   | inl msg => inl (ProviderError msg)
                   | inr predictions => inr (PredictResponse predictions)
                   end) st'
              (cs ++ [CallFetchWorkflow name version; CallPredict workflow_inputs])
        end
    end.
Proof.
  intros Hd Ht Hl version name.
  unfold _predict_endpoint, build_workflow_inputs.
  rewrite Hd, Ht, Hl. fold (requested_version req). fold version. fold name.
  unfold_M. cbn [default negb].
  destruct (resolve_model E req version st) as [[e|m] st' cs]; [reflexivity|].
  step. destruct (remote_fetch_workflow E name version) as [msg|wf]; step.
  - reflexivity.
  - destruct (model_predict E _); reflexivity.
Qed.

Lemma raises_bind {A B} P (m : M G A) (k : A -> M G B) :
  raises_only P m -> (forall a, raises_only P (k a)) ->
  raises_only P (m ≫= k).
Proof.
  intros Hm Hk st e. rewrite result_bind.
  destruct (result (m st)) as [e'|a] eqn:Hr.
  - intros [= <-]. eapply Hm; eassumption.
  - apply Hk.
Qed.

Lemma raises_ret {A} P (a : A) : raises_only P (mret a : M G A).
Proof. intros st e; discriminate. Qed.

Lemma raises_call_remote {A} c (r : string + A) :
  raises_only after_resolution (call c RemoteError r : M G A).
Proof. intros st e. destruct r; cbn; intros [= <-]; reflexivity. Qed.

Lemma raises_call_provider {A} c (r : string + A) :
  raises_only after_resolution (call c ProviderError r : M G A).
Proof. intros st e. destruct r; cbn; intros [= <-]; reflexivity. Qed.

Lemma raises_getitem d key :
  raises_only after_resolution (getitem d key : M G Value).
Proof.
  intros st e. unfold getitem. destruct (d !! key); cbn; intros [= <-].
  reflexivity.
Qed.

Lemma raises_read_local {A} var (x : option A) :
  raises_only after_resolution (read_local var x : M G A).
Proof. intros st e. destruct x; cbn; intros [= <-]. reflexivity. Qed.

Lemma predict_after_resolution req version latest_model :
  raises_only after_resolution
    ('(workflow_inputs, predict_wf) ←
       build_workflow_inputs E req version latest_model;
     predictions ←
       (if negb (pr_local req) then
          predict_wf ← read_local "predict_wf" predict_wf;
          execution ← call (CallExecute predict_wf workflow_inputs) RemoteError
                        (remote_execute E predict_wf workflow_inputs);
          getitem (outputs execution) "o0"
        else
          call (CallPredict workflow_inputs) ProviderError
            (model_predict E workflow_inputs));
     mret (PredictResponse predictions)).
Proof.
  unfold build_workflow_inputs.
  repeat first
    [ apply raises_bind; [| intros ?]
    | apply raises_ret | apply raises_call_remote | apply raises_call_provider
    | apply raises_getitem | apply raises_read_local
    | match goal with
      | |- raises_only _ (if ?b then _ else _) => destruct b
      | |- raises_only _ (let '(_, _) := ?x in _) => destruct x
      end ].
Qed.

Lemma predict_unresolved req st e :
  result (resolve_model E req (requested_version req) st) = inl e ->
  result (_predict_endpoint E req st) = inl e
  /\ calls (_predict_endpoint E req st)
     = calls (resolve_model E req (requested_version req) st).
Proof.
  intros Hr. unfold _predict_endpoint. fold (requested_version req).
  rewrite result_bind, calls_bind, Hr, app_nil_r. auto.
Qed.

(** A request whose model is resolved does not fail with either of the two
    errors that say that no model was found. *)
Lemma predict_resolved req st latest_model e :
  result (resolve_model E req (requested_version req) st) = inr latest_model ->
  result (_predict_endpoint E req st) = inl e ->
  after_resolution e = true.
Proof.
  unfold _predict_endpoint. fold (requested_version req).
  rewrite result_bind. intros ->. apply predict_after_resolution.
Qed.

End PredictProperties.

(** ** The listing of the gateway *)

Lemma insert_sorted_not_nil sort_by x l : insert_sorted sort_by x l <> [].
Proof. destruct l; cbn; [|destruct (comes_first sort_by x e)]; discriminate. Qed.

Lemma sort_executions_nil sort_by l : sort_executions sort_by l = [] <-> l = [].
Proof.
  destruct l as [|x l]; [tauto|]. cbn. split; [|discriminate].
  intros H. destruct (insert_sorted_not_nil sort_by x (sort_executions sort_by l) H).
Qed.

Lemma filter_nil {A} (f : A -> bool) (l : list A) :
  List.filter f l = [] <-> forall x, In x l -> f x = false.
Proof.
  induction l as [|a l IH]; cbn.
  - tauto.
  - destruct (f a) eqn:Ha; split.
    + discriminate.
    + intros H. specialize (H a (or_introl eq_refl)). congruence.
    + intros H x [<-|Hin]; [assumption|]. apply IH; assumption.
    + intros H. apply IH. auto.
Qed.

Lemma selected_succeeded project domain name x :
  selected project domain
    [Equal "launch_plan.name" name; Equal "phase" "SUCCEEDED"] x = true
  <-> ex_project x = project /\ ex_domain x = domain
      /\ ex_launch_plan x = name /\ ex_phase x = "SUCCEEDED".
Proof.
  unfold selected. cbn [forallb].
  change (satisfies x (Equal "launch_plan.name" name))
    with (String.eqb (ex_launch_plan x) name).
  change (satisfies x (Equal "phase" "SUCCEEDED"))
    with (String.eqb (ex_phase x) "SUCCEEDED").
  rewrite !andb_true_iff, !String.eqb_eq. tauto.
Qed.

(** The listing the predict handler asks for is empty exactly when the
    history has no successful execution of the train workflow. *)
Lemma latest_succeeded_nil history wf :
  list_executions history (id_project (wf_id wf)) (id_domain (wf_id wf)) 1
    [Equal "launch_plan.name" (id_name (wf_id wf)); Equal "phase" "SUCCEEDED"]
    (mkSort "created_at" DESCENDING) = []
  <-> ~ has_succeeded_execution history wf.
Proof.
  unfold list_executions, has_succeeded_execution.
  set (f := selected _ _ _).
  assert (Hsel : forall x, f x = true <->
            ex_project x = id_project (wf_id wf) /\ ex_domain x = id_domain (wf_id wf)
            /\ ex_launch_plan x = id_name (wf_id wf) /\ ex_phase x = "SUCCEEDED")
    by (intros x; apply selected_succeeded).
  assert (Htake : forall l : list ExecutionModel,
            take (Z.to_nat 1) l = [] <-> l = [])
    by (intros [|? ?]; cbn; split; (reflexivity || discriminate)).
  rewrite Htake, sort_executions_nil, filter_nil. split.
  - intros Hnone (x & Hin & Hx). apply Hsel in Hx.
    rewrite (Hnone x Hin) in Hx. discriminate.
  - intros Hno x Hin. destruct (f x) eqn:Hfx; [|reflexivity].
    exfalso. apply Hno. exists x. split; [assumption|]. apply Hsel. assumption.
Qed.

Section PredictClaims.

Context {G : Type}.
Variable E : Env G.

(** The calls of model resolution: one fetch of the train workflow when
    the source is remote, and never an execution or a local prediction. *)
Lemma resolve_model_calls req st :
  let cs := calls (resolve_model E req (requested_version req) st) in
  List.filter is_fetch_workflow cs
  = (if String.eqb (pr_model_source req) "remote"
     then [CallFetchWorkflow (train_workflow_of E req) (requested_version req)]
     else [])
  /\ List.filter is_execute cs = []
  /\ List.filter is_local_predict cs = [].
Proof.
  destruct (String.eqb (pr_model_source req) "remote") eqn:Hsrc.
  - pose proof (resolve_model_remote E req (requested_version req) st Hsrc) as H.
    cbv zeta in H.
    destruct (remote_fetch_workflow E _ _) as [msg|wf]; [rewrite H; auto|].
    destruct (client_list_executions_paginated E _ _ 1 _ _)
      as [msg|[[|x page] token]].
    + rewrite H; auto.
    + rewrite H; auto.
    + destruct H as (r & -> & _). auto.
  - rewrite resolve_model_local by assumption.
    destruct (is_None (_latest_model st)); auto.
Qed.

(** C3, as the code has it.  A predict request with neither [inputs] nor
    [features] fetches no predict workflow and launches no remote
    execution.  The model is resolved first all the same: with the remote
    source that is one fetch, of the train workflow.  With [local] false
    the request then fails, before any prediction; with [local] true the
    local predict operation is invoked, with the resolved model as its only
    input. *)
Theorem predict_without_inputs (st : State G) (req : PredictRequest) :
  truthy_dict (pr_inputs req) = false ->
  truthy_list (pr_features req) = false ->
  let r := _predict_endpoint E req st in
  List.filter is_fetch_workflow (calls r)
  = (if String.eqb (pr_model_source req) "remote"
     then [CallFetchWorkflow (train_workflow_of E req) (requested_version req)]
     else [])
  /\ List.filter is_execute (calls r) = []
  /\ (pr_local req = false ->
      (exists e, result r = inl e)
      /\ List.filter is_local_predict (calls r) = [])
  /\ (pr_local req = true ->
      forall latest_model,
        result (resolve_model E req (requested_version req) st) = inr latest_model ->
        List.filter is_local_predict (calls r)
        = [CallPredict {[ "model" := latest_model ]}]).
Proof.
  intros Hi Hf r. subst r. rewrite run_without_inputs by assumption.
  destruct (resolve_model_calls req st) as (Hfetch & Hexec & Hpred).
  cbv zeta in Hfetch, Hexec, Hpred.
  destruct (resolve_model E req (requested_version req) st) as [[e|m] st' cs];
    cbn [calls result] in *.
  - repeat split; eauto. intros _ ? [=].
  - destruct (pr_local req); cbn [calls result];
      rewrite !List.filter_app, Hfetch, Hexec, Hpred; cbn [List.filter
        is_fetch_workflow is_execute is_local_predict app];
      rewrite ?app_nil_r; repeat split; eauto; try discriminate.
    intros _ ? [= <-]. reflexivity.
Qed.

Lemma is_None_spec v : is_None v = true <-> v = VNone.
Proof. destruct v; cbn; split; congruence. Qed.

(** C4.  With the local source the request fails with [ModelNotTrained],
    an HTTP 500, exactly when the cache holds no model, and then calls
    nothing.  With the remote source and the train workflow resolved, it
    fails with [NoTrainedModelFound] exactly when the history of the
    gateway has no execution of that workflow in phase SUCCEEDED, and then
    it has only fetched the workflow and listed executions: no prediction
    was run. *)
Theorem predict_fails_without_model (st : State G) (req : PredictRequest) :
  let r := _predict_endpoint E req st in
  (pr_model_source req = "local" ->
   (result r = inl ModelNotTrained <-> _latest_model st = VNone)
   /\ (_latest_model st = VNone -> calls r = []))
  /\ (pr_model_source req = "remote" ->
      forall history wf,
        lists_from E history ->
        remote_fetch_workflow E (train_workflow_of E req) (requested_version req)
        = inr wf ->
        (result r = inl NoTrainedModelFound
         <-> ~ has_succeeded_execution history wf)
        /\ (~ has_succeeded_execution history wf ->
            List.filter is_prediction (calls r) = [])).
Proof.
  intros r. subst r. split.
  - intros Hsrc.
    assert (Heq : String.eqb (pr_model_source req) "remote" = false)
      by (rewrite Hsrc; reflexivity).
    pose proof (resolve_model_local E req (requested_version req) st Heq) as Hres.
    destruct (is_None (_latest_model st)) eqn:Hnone.
    + apply is_None_spec in Hnone.
      destruct (predict_unresolved E req st ModelNotTrained) as [Hr Hc];
        [rewrite Hres; reflexivity|].
      rewrite Hr, Hc, Hres. cbn [calls]. tauto.
    + assert (Hn : _latest_model st <> VNone).
      { intros Hv. apply is_None_spec in Hv. congruence. }
      split; [|tauto]. split; [|tauto].
      intros Hr. eapply predict_resolved in Hr; [discriminate|].
      rewrite Hres. reflexivity.
  - intros Hsrc history wf Hlist Hfetch.
    assert (Heq : String.eqb (pr_model_source req) "remote" = true)
      by (rewrite Hsrc; reflexivity).
    pose proof (resolve_model_remote E req (requested_version req) st Heq) as Hres.
    cbv zeta in Hres. unfold train_workflow_of in Hfetch, Hres.
    rewrite Hfetch in Hres.
    destruct (Hlist (id_project (wf_id wf)) (id_domain (wf_id wf)) 1
                [Equal "launch_plan.name" (id_name (wf_id wf));
                 Equal "phase" "SUCCEEDED"]
                (mkSort "created_at" DESCENDING)) as [token Hl].
    rewrite Hl in Hres.
    pose proof (latest_succeeded_nil history wf) as Hnil.
    destruct (list_executions history _ _ 1 _ _) as [|x page].
    + destruct (predict_unresolved E req st NoTrainedModelFound) as [Hr Hc];
        [rewrite Hres; reflexivity|].
      rewrite Hr, Hc, Hres. cbn [calls]. split; [|reflexivity].
      split; [|reflexivity]. intros _. apply Hnil. reflexivity.
    + destruct Hres as (res & Hres & Hne).
      assert (Hsome : ~ ~ has_succeeded_execution history wf).
      { intros Hno. apply Hnil in Hno. discriminate. }
      split; [|tauto]. split; [|tauto].
      intros Hr. exfalso.
      destruct res as [e|m].
      * destruct (predict_unresolved E req st e) as [Hr' _];
          [rewrite Hres; reflexivity|].
        rewrite Hr' in Hr. congruence.
      * eapply predict_resolved in Hr; [discriminate|].
        rewrite Hres. reflexivity.
Qed.

(** A local prediction from the local cache, with a body of inputs: the
    first thing the handler does once it has read the cache is to ask the
    gateway for the predict workflow. *)
Lemma local_predict_with_inputs_calls_gateway (st : State G) (req : PredictRequest) d :
  pr_inputs req = Some d ->
  truthy_dict (Some d) = true ->
  pr_local req = true ->
  pr_model_source req = "local" ->
  _latest_model st <> VNone ->
  exists rest,
    calls (_predict_endpoint E req st)
    = CallFetchWorkflow
        (workflow_name (pr_model_name req) "predict_workflow_name"
           (predict_workflow_name E))
        (requested_version req) :: rest.
Proof.
  intros Hd Ht Hl Hsrc Hm.
  pose proof (run_with_inputs E req st d Hd Ht Hl) as Hrun. cbv zeta in Hrun.
  rewrite Hrun, resolve_model_local by (rewrite Hsrc; reflexivity).
  destruct (is_None (_latest_model st)) eqn:Hnone.
  - apply is_None_spec in Hnone. contradiction.
  - destruct (remote_fetch_workflow E _ _); cbn [calls app]; eauto.
Qed.

End PredictClaims.

(** ** The cache of the Model Handle *)

(** C8.  A train request in remote mode leaves both cache slots as they
    were.  In local mode a successful train stores the model and the metrics
    that this one call to [model.train] returned, both of them, and a failed
    one stores nothing.  The predict and labelling handlers never write the
    slots. *)
Theorem cache_written_by_local_train_only {G} (E : Env G) (st : State G) :
  (forall req, tr_local req = false ->
     cache_slots (state_after (_train_endpoint E req st)) = cache_slots st)
  /\ (forall req, tr_local req = true ->
        match result (_train_endpoint E req st) with
        | inr response =>
            exists trained_model metrics,
              model_train E (as_dict (tr_inputs req)) = inr (trained_model, metrics)
              /\ response = TrainResponse (py_str E trained_model) metrics
              /\ cache_slots (state_after (_train_endpoint E req st))
                 = (trained_model, metrics)
        | inl _ =>
            cache_slots (state_after (_train_endpoint E req st)) = cache_slots st
        end)
  /\ (forall req,
        cache_slots (state_after (_predict_endpoint E req st)) = cache_slots st)
  /\ (forall req,
        cache_slots (state_after (_labeller_endpoint E req st)) = cache_slots st).
Proof.
  split; [|split; [|split]].
  - intros req Hl. rewrite train_remote_frame by assumption. reflexivity.
  - intros req Hl. rewrite train_local_run by assumption.
    destruct (model_train E _) as [msg|[m k]]; cbn [result state_after].
    + reflexivity.
    + exists m, k. auto.
  - intros req. rewrite predict_frame. reflexivity.
  - intros req. apply labeller_cache_frame.
Qed.

(** ** Runs on the sample deployment *)

(** C7.  The claim is that a local predict from the local cache, right after
    a local train, makes no call to the gateway.  On the sample deployment
    the train stores its model and calls only [model.train]; the predict that
    follows, with a body of inputs, scores with that model but first calls
    [fetch_workflow] for the predict workflow, which it then does not use. *)
Theorem local_predict_fetches_workflow :
  let E := Sample.env [] in
  let inputs : Dict := {[ "x" := VInt 1 ]} in
  let t := _train_endpoint E Sample.train_locally initial_state in
  let p := _predict_endpoint E (Sample.predict_locally (Some inputs)) (state_after t) in
  result t = inr (TrainResponse "LogisticRegression()" Sample.its_metrics)
  /\ calls t = [CallTrain ∅]
  /\ _latest_model (state_after t) = Sample.trained
  /\ result p = inr (PredictResponse (VObj 3))
  /\ calls p = [ CallFetchWorkflow "digits.predict" None;
                 CallPredict (<[ "model" := Sample.trained ]> inputs) ]
  /\ existsb is_remote_call (calls p) = true.
Proof. vm_compute. repeat split. Qed.

Lemma reachable_after {G} (E : Env G) (reqs : list Request) :
  reachable E (Sample.after E reqs).
Proof.
  unfold Sample.after.
  assert (H : forall st, reachable E st ->
            reachable E (fold_left (fun st req => state_after (handle E req st))
                           reqs st)).
  { induction reqs as [|req reqs IH]; intros st Hst; cbn [fold_left].
    - assumption.
    - apply IH. constructor. assumption. }
  apply H. constructor.
Qed.

(** The first request of [session-1], sent without [reader_inputs]. *)
Lemma first_request_needs_reader_inputs_witness :
  result (_labeller_endpoint Sample.deployment
            Sample.next_batch_without_reader_inputs initial_state)
  = inl (TypeError "argument after ** must be a mapping, not NoneType")
  /\ APP_LABELLER_CACHE
       (state_after (_labeller_endpoint Sample.deployment
                       Sample.next_batch_without_reader_inputs initial_state))
     !! "session-1" = None.
Proof.
  destruct (first_request_needs_reader_inputs Sample.deployment initial_state
              Sample.next_batch_without_reader_inputs)
    as (Hres & _ & _ & Hnone).
  - reflexivity.
  - reflexivity.
  - split; assumption.
Defined.

(** C2 as stated fails on a first request that submits: the request is
    rejected with [NoSubmissionExpected], and the table, which had no entry
    for the session, has one afterwards. *)
Lemma rejected_first_request_creates_entry :
  APP_LABELLER_CACHE (initial_state (G := list Value)) !! "session-1" = None
  /\ result (_labeller_endpoint Sample.deployment Sample.submit_labels initial_state)
     = inl NoSubmissionExpected
  /\ APP_LABELLER_CACHE
       (state_after (_labeller_endpoint Sample.deployment Sample.submit_labels
                       initial_state))
     !! "session-1"
     = Some (mkSession (GenCreated [VObj 100; VObj 101]) false false)
  /\ state_after (_labeller_endpoint Sample.deployment Sample.submit_labels
                    initial_state)
     <> initial_state.
Proof.
  repeat split; try (vm_compute; reflexivity).
  intros H.
  apply (f_equal (fun st => APP_LABELLER_CACHE st !! "session-1")) in H.
  vm_compute in H. discriminate.
Qed.

(** A second request for the next batch while the first batch is awaiting
    its labels. *)
Lemma rejection_leaves_sessions_witness :
  result (_labeller_endpoint Sample.deployment Sample.next_batch
            Sample.awaiting_state)
  = inl SubmissionPending
  /\ state_after (_labeller_endpoint Sample.deployment Sample.next_batch
                    Sample.awaiting_state)
     = Sample.awaiting_state.
Proof.
  assert (H : result (_labeller_endpoint Sample.deployment Sample.next_batch
                        Sample.awaiting_state) = inl SubmissionPending)
    by (vm_compute; reflexivity).
  split; [exact H|].
  destruct (rejection_leaves_sessions Sample.deployment Sample.awaiting_state
              Sample.next_batch SubmissionPending H (or_introl eq_refl))
    as (Hsame & _).
  apply Hsame. vm_compute. eauto.
Defined.

(** C3 as stated fails on a request that names neither [inputs] nor
    [features], asks for a local prediction and takes its model from the
    gateway: the train workflow is fetched, and the local predict operation
    is invoked and answers. *)
Lemma no_inputs_not_rejected :
  truthy_dict (pr_inputs (Sample.predict_from_remote_model true)) = false
  /\ truthy_list (pr_features (Sample.predict_from_remote_model true)) = false
  /\ result (_predict_endpoint (Sample.env [Sample.succeeded_at 1])
               (Sample.predict_from_remote_model true) initial_state)
     = inr (PredictResponse (VObj 3))
  /\ List.filter (fun c => is_fetch_workflow c || is_local_predict c)
       (calls (_predict_endpoint (Sample.env [Sample.succeeded_at 1])
                 (Sample.predict_from_remote_model true) initial_state))
     = [ CallFetchWorkflow "digits.train" None;
         CallPredict {[ "model" := VObj 10 ]} ].
Proof. vm_compute. repeat split. Qed.

(** The same request with [local] false. *)
Lemma predict_without_inputs_witness :
  List.filter is_execute
    (calls (_predict_endpoint (Sample.env [Sample.succeeded_at 1])
              (Sample.predict_from_remote_model false) initial_state)) = []
  /\ exists e,
       result (_predict_endpoint (Sample.env [Sample.succeeded_at 1])
                 (Sample.predict_from_remote_model false) initial_state) = inl e.
Proof.
  destruct (predict_without_inputs (Sample.env [Sample.succeeded_at 1])
              initial_state (Sample.predict_from_remote_model false)
              eq_refl eq_refl)
    as (_ & Hexec & Hremote & _).
  destruct (Hremote eq_refl) as [Hfail _].
  split; assumption.
Defined.

Lemma sample_lists_from history : lists_from (Sample.env history) history.
Proof. intros project domain limit filters sort_by. exists "". reflexivity. Qed.

(** A local-source request on a fresh Model Handle, and a remote-source
    request against a gateway whose only execution of the train workflow
    failed. *)
Lemma predict_fails_without_model_witness :
  result (_predict_endpoint Sample.deployment (Sample.predict_locally None)
            initial_state) = inl ModelNotTrained
  /\ result (_predict_endpoint (Sample.env [Sample.failed_at 2])
               (Sample.predict_from_remote_model false) initial_state)
     = inl NoTrainedModelFound.
Proof.
  split.
  - destruct (predict_fails_without_model Sample.deployment initial_state
                (Sample.predict_locally None)) as [Hlocal _].
    destruct (Hlocal eq_refl) as [Hiff _]. apply Hiff. reflexivity.
  - destruct (predict_fails_without_model (Sample.env [Sample.failed_at 2])
                initial_state (Sample.predict_from_remote_model false))
      as [_ Hremote].
    destruct (Hremote eq_refl [Sample.failed_at 2] Sample.train_workflow
                (sample_lists_from _) eq_refl) as [Hiff _].
    apply Hiff. intros (x & Hin & _ & _ & _ & Hphase).
    destruct Hin as [<-|[]]. discriminate.
Defined.

(** A second request for the next batch of [session-1] while its first batch
    is awaiting submission. *)
Lemma turn_taking_witness :
  result (_labeller_endpoint Sample.deployment Sample.next_batch
            Sample.awaiting_state) = inl SubmissionPending.
Proof.
  destruct (turn_taking Sample.deployment Sample.awaiting_state Sample.next_batch
              (mkSession (GenSuspended [VObj 101]) true false))
    as (Hnext & _).
  - vm_compute. reflexivity.
  - reflexivity.
  - apply Hnext; reflexivity.
Defined.

(** The request for the next batch that finds the generator of [session-1]
    exhausted. *)
Lemma session_completes_once_witness :
  exists s',
    APP_LABELLER_CACHE
      (state_after (_labeller_endpoint Sample.deployment Sample.next_batch
                      Sample.drained_state)) !! "session-1" = Some s'
    /\ session_complete s' = true
    /\ result (_labeller_endpoint Sample.deployment Sample.next_batch
                 Sample.drained_state) = inr (BatchResponse VNone true).
Proof.
  destruct (session_completes_once Sample.deployment Sample.drained_state
              Sample.next_batch (mkSession (GenSuspended []) false false))
    as (s' & Hs' & Hturn & _).
  - vm_compute. reflexivity.
  - destruct (Hturn eq_refl) as [Hiff Hresp].
    assert (Hc : session_complete s' = true).
    { apply Hiff. repeat split. }
    exists s'. repeat split; auto.
Defined.

(** [session-1] while its first batch is awaiting submission. *)
Lemma one_condition_at_a_time_witness :
  exactly_one
    (batch_awaiting_submission (mkSession (GenSuspended [VObj 101]) true false))
    (is_complete (mkSession (GenSuspended [VObj 101]) true false))
    (ready_for_next_batch (mkSession (GenSuspended [VObj 101]) true false))
  = true.
Proof.
  destruct (one_condition_at_a_time Sample.deployment Sample.awaiting_state
              "session-1" (mkSession (GenSuspended [VObj 101]) true false))
    as [Hone _].
  - apply reachable_after.
  - vm_compute. reflexivity.
  - exact Hone.
Defined.

(** A remote and a local train on a fresh Model Handle. *)
Lemma cache_written_by_local_train_only_witness :
  cache_slots (state_after (_train_endpoint Sample.deployment Sample.train_remotely
                              initial_state)) = (VNone, VNone)
  /\ cache_slots (state_after (_train_endpoint Sample.deployment Sample.train_locally
                                 initial_state))
     = (Sample.trained, Sample.its_metrics).
Proof.
  destruct (cache_written_by_local_train_only Sample.deployment initial_state)
    as (Hremote & Hlocal & _).
  split.
  - apply (Hremote Sample.train_remotely). reflexivity.
  - specialize (Hlocal Sample.train_locally eq_refl).
    destruct (result (_train_endpoint Sample.deployment Sample.train_locally
                        initial_state)) eqn:Hr.
    + vm_compute in Hr. discriminate.
    + destruct Hlocal as (m & k & Htrain & _ & ->).
      cbn in Htrain. congruence.
Defined.

(** * Further properties of the handlers *)

(** ** Calls of composed computations *)

Section Calls.

Context {G : Type}.

Lemma calls_all_bind {A B} P (m : M G A) (k : A -> M G B) :
  calls_all P m -> (forall a, calls_all P (k a)) -> calls_all P (m ≫= k).
Proof.
  intros Hm Hk st. rewrite calls_bind, forallb_app, Hm.
  destruct (result (m st)); [reflexivity | apply Hk].
Qed.

Lemma calls_all_ret {A} P (a : A) : calls_all P (mret a : M G A).
Proof. intros st. reflexivity. Qed.

Lemma calls_all_raise {A} P e : calls_all P (raise e : M G A).
Proof. intros st. reflexivity. Qed.

Lemma calls_all_get_state P : calls_all P (get_state : M G (State G)).
Proof. intros st. reflexivity. Qed.

Lemma calls_all_put_state P st' : calls_all P (put_state st' : M G unit).
Proof. intros st. reflexivity. Qed.

Lemma calls_all_getitem P d key : calls_all P (getitem d key : M G Value).
Proof. unfold getitem. destruct (d !! key); intros st; reflexivity. Qed.

Lemma calls_all_read_local {A} P var (x : option A) :
  calls_all P (read_local var x : M G A).
Proof. destruct x; intros st; reflexivity. Qed.

Lemma calls_all_call {A} (P : Call -> bool) c wrap (r : string + A) :
  P c = true -> calls_all P (call c wrap r : M G A).
Proof. intros Hc st. cbn [call calls forallb]. rewrite Hc. reflexivity. Qed.

End Calls.

(** Splits a goal [calls_all P m] along the structure of [m]; what it leaves
    are the calls whose [P] does not compute. *)
Ltac walk_calls :=
  repeat first
    [ apply calls_all_bind; [| intros ?]
    | apply calls_all_ret | apply calls_all_raise | apply calls_all_get_state
    | apply calls_all_put_state | apply calls_all_getitem
    | apply calls_all_read_local
    | apply calls_all_call; try reflexivity
    | match goal with
      | |- calls_all _ (if ?b then _ else _) => destruct b
      | |- calls_all _ (let '(_, _) := ?x in _) => destruct x
      | |- calls_all _ (match ?x with _ => _ end) => destruct x
      end ].

(** ** Dispatch between the local and the remote path *)

Section Dispatch.

Context {G : Type}.
Variable E : Env G.

(** X1.  The train handler keeps its two paths apart: a local train makes no
    call to the gateway, a remote train never calls [model.train]. *)
Theorem train_dispatch (st : State G) (req : TrainRequest) :
  forallb (allowed_in_train (tr_local req)) (calls (_train_endpoint E req st))
  = true.
Proof.
  revert st. change (calls_all (allowed_in_train (tr_local req))
                       (_train_endpoint E req)).
  unfold _train_endpoint, set_latest.
  destruct (tr_local req); cbn [negb]; walk_calls.
Qed.

(** X2.  The predict handler keeps its two executions apart: with [local]
    true no workflow is executed remotely, with [local] false
    [model.predict] is never called. *)
Theorem predict_dispatch (st : State G) (req : PredictRequest) :
  forallb (allowed_in_predict (pr_local req)) (calls (_predict_endpoint E req st))
  = true.
Proof.
  revert st. change (calls_all (allowed_in_predict (pr_local req))
                       (_predict_endpoint E req)).
  unfold _predict_endpoint, resolve_model, build_workflow_inputs.
  destruct (pr_local req); cbn [negb]; walk_calls.
Qed.

(** X3.  Every workflow a predict request fetches, the train workflow as
    well as the predict workflow, is fetched at the one version the request
    asks for: unpinned for "latest", the given version otherwise. *)
Theorem predict_fetches_requested_version (st : State G) (req : PredictRequest) :
  forallb (fetches_version (requested_version req))
    (calls (_predict_endpoint E req st)) = true
  /\ (pr_model_version req = "latest" -> requested_version req = None)
  /\ (pr_model_version req <> "latest" ->
      requested_version req = Some (pr_model_version req)).
Proof.
  split; [|split].
  - revert st. change (calls_all (fetches_version (requested_version req))
                         (_predict_endpoint E req)).
    unfold _predict_endpoint, resolve_model, build_workflow_inputs.
    fold (requested_version req).
    walk_calls; apply bool_decide_eq_true_2; reflexivity.
  - intros H. unfold requested_version. rewrite H. reflexivity.
  - intros H. unfold requested_version.
    destruct (String.eqb_spec (pr_model_version req) "latest"); congruence.
Qed.

End Dispatch.

(** ** Inputs, features and the model of a prediction *)

Section PredictInputs.

Context {G : Type}.
Variable E : Env G.

(** X4.  When a predict request carries a non-empty [inputs], its [features]
    play no part: the run is, call for call, the run of the same request
    without them, and the Dataset Provider is never asked to materialise
    features. *)
Theorem inputs_take_precedence (st : State G) (req : PredictRequest) :
  truthy_dict (pr_inputs req) = true ->
  _predict_endpoint E req st = _predict_endpoint E (without_features req) st
  /\ forallb (fun c => negb (is_get_features c))
       (calls (_predict_endpoint E req st)) = true.
Proof.
  intros Ht. split.
  - unfold _predict_endpoint, resolve_model, build_workflow_inputs,
      without_features.
    cbn [pr_local pr_model_name pr_model_version pr_model_source pr_inputs
         pr_features].
    rewrite Ht. reflexivity.
  - revert st. change (calls_all (fun c => negb (is_get_features c))
                         (_predict_endpoint E req)).
    unfold _predict_endpoint, resolve_model, build_workflow_inputs.
    rewrite Ht. walk_calls.
Qed.

Lemma calls_all_bind_result {A B} P (Q : A -> Prop) (m : M G A) (k : A -> M G B) :
  (forall st a, result (m st) = inr a -> Q a) ->
  calls_all P m -> (forall a, Q a -> calls_all P (k a)) ->
  calls_all P (m ≫= k).
Proof.
  intros HQ Hm Hk st. rewrite calls_bind, forallb_app, Hm.
  destruct (result (m st)) eqn:Hr; [reflexivity|].
  apply Hk. eapply HQ. eassumption.
Qed.

Lemma build_workflow_inputs_model req version latest_model d v st wi wf :
  pr_inputs req = Some d ->
  d !! "model" = Some v ->
  result (build_workflow_inputs E req version latest_model st) = inr (wi, wf) ->
  wi !! "model" = Some v.
Proof.
  intros Hd Hv.
  assert (Ht : truthy_dict (pr_inputs req) = true).
  { rewrite Hd. cbn [truthy_dict]. apply negb_true_iff, bool_decide_eq_false_2.
    intros ->. rewrite lookup_empty in Hv. discriminate. }
  unfold build_workflow_inputs. rewrite Ht, Hd. cbn [default]. unfold_M.
  destruct (remote_fetch_workflow E _ version); step; [discriminate|].
  intros [= <- _]. apply lookup_union_Some_l. assumption.
Qed.

(** X5.  [workflow_inputs.update(inputs)] lets the request overwrite the
    model: when [inputs] has a key "model", every prediction the request
    runs, remote or local, is given that value, and the model that was
    resolved from the gateway or the cache is not used. *)
Theorem inputs_can_replace_the_model
    (st : State G) (req : PredictRequest) (d : Dict) (v : Value) :
  pr_inputs req = Some d ->
  d !! "model" = Some v ->
  forallb (scores_with v) (calls (_predict_endpoint E req st)) = true.
Proof.
  intros Hd Hv.
  revert st. change (calls_all (scores_with v) (_predict_endpoint E req)).
  unfold _predict_endpoint.
  apply calls_all_bind; [unfold resolve_model; walk_calls | intros latest_model].
  apply calls_all_bind_result with (Q := fun p => p.1 !! "model" = Some v).
  - intros st [wi wf] Hr. eapply build_workflow_inputs_model; eassumption.
  - unfold build_workflow_inputs. walk_calls.
  - intros [wi wf] Hwi. cbn [fst] in Hwi.
    walk_calls; apply bool_decide_eq_true_2; assumption.
Qed.

(** X6.  Only the exact string "remote" selects the gateway as the source of
    the model.  With any other [model_source] the handler reads the cache of
    the Model Handle: it never lists or syncs executions, and it fails with
    [ModelNotTrained] exactly when the cache is empty. *)
Theorem any_other_source_is_local (st : State G) (req : PredictRequest) :
  pr_model_source req <> "remote" ->
  forallb (fun c => negb (is_history_call c))
    (calls (_predict_endpoint E req st)) = true
  /\ (result (_predict_endpoint E req st) = inl ModelNotTrained
      <-> _latest_model st = VNone).
Proof.
  intros Hsrc.
  assert (Heq : String.eqb (pr_model_source req) "remote" = false)
    by (apply String.eqb_neq; assumption).
  split.
  - revert st. change (calls_all (fun c => negb (is_history_call c))
                         (_predict_endpoint E req)).
    unfold _predict_endpoint, resolve_model, build_workflow_inputs.
    rewrite Heq. walk_calls.
  - pose proof (resolve_model_local E req (requested_version req) st Heq) as Hres.
    destruct (is_None (_latest_model st)) eqn:Hnone.
    + apply is_None_spec in Hnone.
      destruct (predict_unresolved E req st ModelNotTrained) as [Hr _];
        [rewrite Hres; reflexivity|].
      rewrite Hr. tauto.
    + assert (Hn : _latest_model st <> VNone).
      { intros Hv. apply is_None_spec in Hv. congruence. }
      split; [|tauto].
      intros Hr. eapply predict_resolved in Hr; [discriminate|].
      rewrite Hres. reflexivity.
Qed.

End PredictInputs.

(** ** The model and the features a prediction is given *)

Section PredictModel.

Context {G : Type}.
Variable E : Env G.

Lemma resolve_model_predicts_nothing P req version :
  (forall c, is_prediction c = false -> P c = true) ->
  calls_all P (resolve_model E req version).
Proof.
  intros HP. unfold resolve_model.
  walk_calls; apply HP; reflexivity.
Qed.

Lemma build_workflow_inputs_keeps_model req version latest_model st wi wf :
  (forall d, pr_inputs req = Some d -> d !! "model" = None) ->
  result (build_workflow_inputs E req version latest_model st) = inr (wi, wf) ->
  wi !! "model" = Some latest_model.
Proof.
  intros Hd. unfold build_workflow_inputs.
  destruct (truthy_dict (pr_inputs req)) eqn:Ht.
  - destruct (pr_inputs req) as [d|]; [|discriminate]. cbn [default]. unfold_M.
    destruct (remote_fetch_workflow E _ version); step; [discriminate|].
    intros [= <- _]. rewrite lookup_union_r by (apply Hd; reflexivity).
    apply lookup_singleton_eq.
  - destruct (truthy_list (pr_features req)); unfold_M.
    + destruct (dataset_get_features E _); step; [discriminate|].
      destruct (remote_fetch_workflow E _ version); step; [discriminate|].
      intros [= <- _]. rewrite lookup_insert_ne by discriminate.
      apply lookup_singleton_eq.
    + step. intros [= <- _]. apply lookup_singleton_eq.
Qed.

(** Unless [inputs] brings its own, every prediction of a request is given
    the model that the resolution returned. *)
Lemma predictions_use_resolved_model req st latest_model :
  (forall d, pr_inputs req = Some d -> d !! "model" = None) ->
  (forall m, result (resolve_model E req (requested_version req) st) = inr m ->
        m = latest_model) ->
  forallb (scores_with latest_model) (calls (_predict_endpoint E req st)) = true.
Proof.
  intros Hd Hm. unfold _predict_endpoint. fold (requested_version req).
  rewrite calls_bind, forallb_app.
  rewrite (resolve_model_predicts_nothing (scores_with latest_model))
    by (intros [] Hc; (reflexivity || discriminate)).
  destruct (result (resolve_model E req (requested_version req) st)) as [e|m] eqn:Hr;
    [reflexivity|].
  rewrite (Hm m eq_refl). cbn [andb]. revert st Hm Hr. intros st _ _.
  generalize (state_after (resolve_model E req (requested_version req) st)).
  change (calls_all (scores_with latest_model)
            ('(workflow_inputs, predict_wf) ←
               build_workflow_inputs E req (requested_version req) latest_model;
             predictions ←
               (if negb (pr_local req) then
                  predict_wf ← read_local "predict_wf" predict_wf;
                  execution ← call (CallExecute predict_wf workflow_inputs) RemoteError
                                (remote_execute E predict_wf workflow_inputs);
                  getitem (outputs execution) "o0"
                else
                  call (CallPredict workflow_inputs) ProviderError
                    (model_predict E workflow_inputs));
             mret (PredictResponse predictions))).
  apply calls_all_bind_result
    with (Q := fun p => p.1 !! "model" = Some latest_model).
  - intros st' [wi wf] Hb. eapply build_workflow_inputs_keeps_model; eassumption.
  - unfold build_workflow_inputs. walk_calls.
  - intros [wi wf] Hwi. cbn [fst] in Hwi.
    walk_calls; apply bool_decide_eq_true_2; assumption.
Qed.

(** X7.  With a source other than "remote" and no "model" key in [inputs],
    every prediction a request runs, remote or local, from inputs or from
    features, is given the model that sits in the cache of the Model Handle
    when the request arrives. *)
Theorem local_source_scores_with_cache (st : State G) (req : PredictRequest) :
  pr_model_source req <> "remote" ->
  (forall d, pr_inputs req = Some d -> d !! "model" = None) ->
  forallb (scores_with (_latest_model st)) (calls (_predict_endpoint E req st))
  = true.
Proof.
  intros Hsrc Hd. apply predictions_use_resolved_model; [assumption|].
  intros m. rewrite resolve_model_local by (apply String.eqb_neq; assumption).
  destruct (is_None (_latest_model st)); cbn [result]; congruence.
Qed.

(** The listing came back non-empty: the handler syncs its first element and
    reads [trained_model] off it, whatever else was listed. *)
Lemma resolve_model_first_listed req version st wf x rest token :
  pr_model_source req = "remote" ->
  remote_fetch_workflow E (train_workflow_of E req) version = inr wf ->
  client_list_executions_paginated E (id_project (wf_id wf)) (id_domain (wf_id wf)) 1
    [Equal "launch_plan.name" (id_name (wf_id wf)); Equal "phase" "SUCCEEDED"]
    (mkSort "created_at" DESCENDING) = inr (x :: rest, token) ->
  result (resolve_model E req version st) =
    match remote_sync E (promote_from_model x) with
    | inl msg => inl (RemoteError msg)
    | inr synced =>
        match outputs synced !! "trained_model" with
        | Some m => inr m
        | None => inl (KeyError "trained_model")
        end
    end.
Proof.
  intros Hsrc Hfetch Hlist. unfold resolve_model, train_workflow_of in *.
  rewrite Hsrc. change (String.eqb "remote" "remote") with true. unfold_M. step.
  rewrite Hfetch. step. rewrite Hlist. step.
  destruct (remote_sync E (promote_from_model x)) as [msg|synced]; step;
    [reflexivity|].
  destruct (outputs synced !! "trained_model"); reflexivity.
Qed.

(** X8.  With the remote source and no "model" key in [inputs], every
    prediction is given the [trained_model] output of the first execution the
    gateway listed, as it is after [sync]; the other listed executions and
    the cache of the Model Handle play no part. *)
Theorem remote_source_scores_with_first_listed
    (st : State G) (req : PredictRequest) wf x rest token synced m :
  pr_model_source req = "remote" ->
  (forall d, pr_inputs req = Some d -> d !! "model" = None) ->
  remote_fetch_workflow E (train_workflow_of E req) (requested_version req)
  = inr wf ->
  client_list_executions_paginated E (id_project (wf_id wf)) (id_domain (wf_id wf)) 1
    [Equal "launch_plan.name" (id_name (wf_id wf)); Equal "phase" "SUCCEEDED"]
    (mkSort "created_at" DESCENDING) = inr (x :: rest, token) ->
  remote_sync E (promote_from_model x) = inr synced ->
  outputs synced !! "trained_model" = Some m ->
  forallb (scores_with m) (calls (_predict_endpoint E req st)) = true.
Proof.
  intros Hsrc Hd Hfetch Hlist Hsync Hout.
  apply predictions_use_resolved_model; [assumption|].
  intros m'.
  rewrite (resolve_model_first_listed req _ st wf x rest token Hsrc Hfetch Hlist).
  rewrite Hsync, Hout. congruence.
Qed.

End PredictModel.

Section PredictFeatures.

Context {G : Type}.
Variable E : Env G.

Lemma build_workflow_inputs_features req version latest_model l st :
  truthy_dict (pr_inputs req) = false ->
  pr_features req = Some l ->
  l <> [] ->
  match dataset_get_features E l with
  | inl msg =>
      result (build_workflow_inputs E req version latest_model st)
      = inl (ProviderError msg)
  | inr features =>
      forall wi wf,
        result (build_workflow_inputs E req version latest_model st) = inr (wi, wf) ->
        wi !! "features" = Some features
  end.
Proof.
  intros Hi Hf Hl. unfold build_workflow_inputs. rewrite Hi, Hf.
  destruct l as [|x l]; [congruence|].
  cbn [truthy_list default from_option id]. unfold_M.
  destruct (dataset_get_features E (x :: l)) as [msg|features]; step;
    [reflexivity|].
  destruct (remote_fetch_workflow E _ version); step; [discriminate|].
  intros wi wf [= <- _]. apply lookup_insert_eq.
Qed.

(** X9.  A request that predicts from features (no [inputs], a non-empty
    list of records) hands the records to the Dataset Provider first.  When
    the provider raises, the request fails and no prediction is run, remote
    or local; when it returns, every prediction is given what it returned
    under the key "features", not the records. *)
Theorem features_are_materialised
    (st : State G) (req : PredictRequest) (l : list Dict) :
  truthy_dict (pr_inputs req) = false ->
  pr_features req = Some l ->
  l <> [] ->
  match dataset_get_features E l with
  | inl _ =>
      (exists e, result (_predict_endpoint E req st) = inl e)
      /\ forallb (fun c => negb (is_prediction c))
           (calls (_predict_endpoint E req st)) = true
  | inr features =>
      forallb (given_features features) (calls (_predict_endpoint E req st)) = true
  end.
Proof.
  intros Hi Hf Hl.
  pose proof (fun m st' =>
                build_workflow_inputs_features req (requested_version req) m l st'
                  Hi Hf Hl) as Hb.
  destruct (dataset_get_features E l) as [msg|features].
  - split.
    + unfold _predict_endpoint. fold (requested_version req).
      rewrite result_bind.
      destruct (result (resolve_model E req (requested_version req) st));
        [eauto|].
      rewrite result_bind, Hb. eauto.
    + revert st. change (calls_all (fun c => negb (is_prediction c))
                           (_predict_endpoint E req)).
      unfold _predict_endpoint. fold (requested_version req).
      apply calls_all_bind; [|intros m].
      { apply resolve_model_predicts_nothing. intros c ->. reflexivity. }
      apply calls_all_bind_result with (Q := fun _ => False).
      * intros st a Hr. rewrite Hb in Hr. discriminate.
      * unfold build_workflow_inputs. walk_calls.
      * intros a [].
  - revert st. change (calls_all (given_features features)
                         (_predict_endpoint E req)).
    unfold _predict_endpoint. fold (requested_version req).
    apply calls_all_bind; [|intros m].
    { apply resolve_model_predicts_nothing.
      intros [] Hc; (reflexivity || discriminate). }
    apply calls_all_bind_result
      with (Q := fun p => p.1 !! "features" = Some features).
    + intros st [wi wf] Hr. eapply Hb. eassumption.
    + unfold build_workflow_inputs. walk_calls.
    + intros [wi wf] Hwi. cbn [fst] in Hwi.
      walk_calls; apply bool_decide_eq_true_2; assumption.
Qed.

End PredictFeatures.

(** ** The remote train *)

Section RemoteTrain.

Context {G : Type}.
Variable E : Env G.

Lemma train_remote_run req st :
  tr_local req = false ->
  let inputs := as_dict (tr_inputs req) in
  let name := workflow_name (tr_model_name req) "train" (train_workflow_name E) in
  _train_endpoint E req st =
    match remote_fetch_workflow E name None with
    | inl msg => mkRun (inl (RemoteError msg)) st [CallFetchWorkflow name None]
    | inr wf =>
        mkRun
          (match remote_execute E wf inputs with
           | inl msg => inl (RemoteError msg)
           | inr execution =>
               match outputs execution !! "trained_model" with
               | None => inl (KeyError "trained_model")
               | Some trained_model =>
                   match outputs execution !! "metrics" with
                   | None => inl (KeyError "metrics")
                   | Some metrics =>
                       inr (TrainResponse (py_str E trained_model) metrics)
                   end
               end
           end) st [CallFetchWorkflow name None; CallExecute wf inputs]
    end.
Proof.
  intros Hl inputs name. subst inputs name.
  unfold _train_endpoint. rewrite Hl. unfold_M. step.
  destruct (remote_fetch_workflow E _ None) as [msg|wf]; [reflexivity|]. step.
  destruct (remote_execute E wf _) as [msg|ex]; [reflexivity|]. step.
  destruct (outputs ex !! "trained_model"); [|reflexivity]. step.
  destruct (outputs ex !! "metrics"); reflexivity.
Qed.

(** X10.  A remote train answers exactly when the train workflow is fetched,
    its execution returns, and the outputs of the execution hold both
    [trained_model] and [metrics]; the response renders that model and
    carries those metrics.  Whether it answers or fails, the state is as it
    was, and the gateway was asked at most twice: one fetch, then one
    execution. *)
Theorem remote_train_outcome (st : State G) (req : TrainRequest) :
  tr_local req = false ->
  let inputs := as_dict (tr_inputs req) in
  let name := workflow_name (tr_model_name req) "train" (train_workflow_name E) in
  let r := _train_endpoint E req st in
  (forall response,
     result r = inr response <->
     exists wf execution trained_model metrics,
       remote_fetch_workflow E name None = inr wf
       /\ remote_execute E wf inputs = inr execution
       /\ outputs execution !! "trained_model" = Some trained_model
       /\ outputs execution !! "metrics" = Some metrics
       /\ response = TrainResponse (py_str E trained_model) metrics)
  /\ state_after r = st
  /\ (calls r = [CallFetchWorkflow name None]
      \/ exists wf, calls r = [CallFetchWorkflow name None; CallExecute wf inputs]).
Proof.
  intros Hl inputs name r. subst r.
  pose proof (train_remote_run req st Hl) as Hrun. cbv zeta in Hrun.
  fold inputs name in Hrun. rewrite Hrun. clear Hrun.
  destruct (remote_fetch_workflow E name None) as [msg|wf]; cbn [result state_after calls].
  - split; [|auto]. intros response. split; [discriminate|].
    intros (? & ? & ? & ? & [=] & _).
  - split; [|eauto]. intros response.
    destruct (remote_execute E wf inputs) as [msg|ex] eqn:Hex.
    + split; [discriminate|].
      intros (? & ? & ? & ? & [= <-] & Hex' & _). congruence.
    + destruct (outputs ex !! "trained_model") as [m|] eqn:Hm.
      * destruct (outputs ex !! "metrics") as [k|] eqn:Hk.
        -- split.
           ++ intros [= <-]. eauto 10.
           ++ intros (? & ? & ? & ? & [= <-] & Hex' & Hm' & Hk' & ->).
              congruence.
        -- split; [discriminate|].
           intros (? & ? & ? & ? & [= <-] & Hex' & _ & Hk' & _). congruence.
      * split; [discriminate|].
        intros (? & ? & ? & ? & [= <-] & Hex' & Hm' & _). congruence.
Qed.

End RemoteTrain.

(** ** Labelling sessions: what a request calls, and what it leaves *)

Section LabellerCalls.

Context {G : Type}.
Variable E : Env G.

(** The calls of a labelling request: the generator is asked for when the
    session is new, and advanced once unless a guard rejects the request. *)
Lemma labeller_calls req st entry :
  working_entry E req st = Some entry ->
  calls (_labeller_endpoint E req st) =
    (match APP_LABELLER_CACHE st !! lr_session_id req, lr_reader_inputs req with
     | None, Some kwargs =>
         [CallLabeller (lr_session_id req) (lr_batch_size req) kwargs]
     | _, _ => []
     end ++
     if lr_submit req then
       if awaiting_submission entry
       then [CallSend (lr_session_id req) (lr_submission req)] else []
     else
       if awaiting_submission entry then [] else [CallNext (lr_session_id req)])%list.
Proof.
  unfold working_entry, _labeller_endpoint, open_session,
    advance_generator, update_entry, try_except_StopIteration.
  unfold_M. step.
  destruct (APP_LABELLER_CACHE st !! lr_session_id req) as [s|] eqn:Hs.
  - intros [= ->]. step.
    destruct (lr_submit req), (awaiting_submission entry); cbn [negb]; step;
      try reflexivity.
    all: destruct (advance E (generator entry) _) as [g' [e|v]]; step;
      try reflexivity.
    destruct e; reflexivity.
  - destruct (lr_reader_inputs req) as [kw|]; [|discriminate].
    step. destruct (dataset_labeller E _ _ kw) as [msg|body]; [discriminate|].
    intros [= <-]. step.
    destruct (lr_submit req); cbn [negb]; step; [reflexivity|].
    unfold advance, resume.
    destruct (labeller_resume E body None); reflexivity.
Qed.

Lemma run_eq {A} (r r' : Run G A) :
  result r = result r' -> state_after r = state_after r' -> calls r = calls r' ->
  r = r'.
Proof. destruct r, r'; cbn; congruence. Qed.

(** X11.  For a session that is in the table, [batch_size] and
    [reader_inputs] are not looked at, nor is [submission] unless the request
    submits: two requests that agree on the session, on [submit] and, when
    they submit, on [submission], run identically, and the Dataset Provider
    is not asked for a generator again. *)
Theorem existing_session_ignores_creation_arguments
    (st : State G) (req req' : LabelRequest) :
  is_Some (APP_LABELLER_CACHE st !! lr_session_id req) ->
  lr_session_id req' = lr_session_id req ->
  lr_submit req' = lr_submit req ->
  (lr_submit req = true -> lr_submission req' = lr_submission req) ->
  _labeller_endpoint E req' st = _labeller_endpoint E req st
  /\ forallb (fun c => negb (is_labeller_call c))
       (calls (_labeller_endpoint E req st)) = true.
Proof.
  intros [s Hs] Hid Hsub Hsame.
  assert (Hw : working_entry E req st = Some s) by (apply working_entry_found; assumption).
  assert (Hw' : working_entry E req' st = Some s)
    by (apply working_entry_found; rewrite Hid; assumption).
  destruct (labeller_on_entry E req st s Hw) as [Hr Hst].
  destruct (labeller_on_entry E req' st s Hw') as [Hr' Hst'].
  pose proof (labeller_calls req st s Hw) as Hc.
  pose proof (labeller_calls req' st s Hw') as Hc'.
  rewrite Hsub in Hr'. rewrite Hid, Hsub in Hst'. rewrite Hid, Hsub in Hc'.
  rewrite Hs in Hc, Hc'.
  assert (Hserve : serve_entry E s (lr_submit req) (lr_submission req')
                   = serve_entry E s (lr_submit req) (lr_submission req)).
  { destruct (lr_submit req); [rewrite Hsame by reflexivity|]; reflexivity. }
  split.
  - apply run_eq.
    + rewrite Hr, Hr', Hserve. reflexivity.
    + rewrite Hst, Hst', Hserve. reflexivity.
    + rewrite Hc, Hc'.
      destruct (lr_submit req); [rewrite Hsame by reflexivity|]; reflexivity.
  - rewrite Hc.
    destruct (lr_submit req), (awaiting_submission s); reflexivity.
Qed.

(** X12.  A request advances the generator of its session at most once, and
    a request that is rejected with an HTTP error does not advance it. *)
Theorem generator_advanced_at_most_once (st : State G) (req : LabelRequest) :
  (length (List.filter is_advance (calls (_labeller_endpoint E req st))) <= 1)%nat
  /\ (forall status detail,
        result (_labeller_endpoint E req st) = inl (HTTPException status detail) ->
        List.filter is_advance (calls (_labeller_endpoint E req st)) = []).
Proof.
  destruct (working_entry E req st) as [entry|] eqn:Hw.
  - pose proof (labeller_calls req st entry Hw) as Hc.
    destruct (labeller_on_entry E req st entry Hw) as [Hr _].
    rewrite Hc, Hr, List.filter_app.
    assert (Hcreate :
      List.filter is_advance
        match APP_LABELLER_CACHE st !! lr_session_id req, lr_reader_inputs req with
        | None, Some kwargs =>
            [CallLabeller (lr_session_id req) (lr_batch_size req) kwargs]
        | _, _ => []
        end = []).
    { destruct (APP_LABELLER_CACHE st !! lr_session_id req);
        [|destruct (lr_reader_inputs req)]; reflexivity. }
    rewrite Hcreate. cbn [app]. split.
    + destruct (lr_submit req), (awaiting_submission entry); cbn; lia.
    + intros status detail Hrej.
      apply serve_entry_rejected in Hrej as [_ [(-> & -> & _)|(-> & -> & _)]];
        reflexivity.
  - destruct (labeller_without_entry E req st Hw)
      as [_ [(_ & Hr & Hc)|(kw & msg & Hkw & Hr)]].
    + rewrite Hc. split; [cbn; lia|]. reflexivity.
    + assert (Hc : calls (_labeller_endpoint E req st)
                   = [CallLabeller (lr_session_id req) (lr_batch_size req) kw]).
      { revert Hw Hr. unfold working_entry, _labeller_endpoint, open_session.
        unfold_M. step.
        destruct (APP_LABELLER_CACHE st !! lr_session_id req); [discriminate|].
        rewrite Hkw. step.
        destruct (dataset_labeller E _ _ kw); [reflexivity|discriminate]. }
      rewrite Hc. split; [cbn; lia|]. reflexivity.
Qed.

End LabellerCalls.

(** ** Labelling sessions: the generator behind the protocol *)

Section LabellerGenerator.

Context {G : Type}.
Variable E : Env G.

(** The second of two requests for the same session works on the entry the
    first one left. *)
Lemma next_request_on_entry req req' st entry :
  working_entry E req st = Some entry ->
  lr_session_id req' = lr_session_id req ->
  let st' := state_after (_labeller_endpoint E req st) in
  let entry' := (serve_entry E entry (lr_submit req) (lr_submission req)).1 in
  APP_LABELLER_CACHE st' !! lr_session_id req = Some entry'
  /\ result (_labeller_endpoint E req' st')
     = (serve_entry E entry' (lr_submit req') (lr_submission req')).2
  /\ state_after (_labeller_endpoint E req' st')
     = with_sessions st'
         (<[lr_session_id req :=
              (serve_entry E entry' (lr_submit req') (lr_submission req')).1]>
            (APP_LABELLER_CACHE st')).
Proof.
  intros Hw Hid st' entry'.
  destruct (labeller_on_entry E req st entry Hw) as [_ Hst].
  assert (Hin : APP_LABELLER_CACHE st' !! lr_session_id req = Some entry').
  { subst st'. rewrite Hst. cbn [with_sessions APP_LABELLER_CACHE].
    apply lookup_insert_eq. }
  split; [assumption|].
  assert (Hw' : working_entry E req' st' = Some entry')
    by (apply working_entry_found; rewrite Hid; assumption).
  destruct (labeller_on_entry E req' st' entry' Hw') as [Hr' Hst'].
  rewrite Hid in Hst'. auto.
Qed.

(** X13.  No request removes a session, and a request changes no entry but
    that of the session it names: train and predict requests leave the whole
    table as it is, a labelling request leaves the entries of all other
    sessions as they are. *)
Theorem sessions_persist (st : State G) (req : Request) (sid : string) (s : Session G) :
  APP_LABELLER_CACHE st !! sid = Some s ->
  is_Some (APP_LABELLER_CACHE (state_after (handle E req st)) !! sid)
  /\ ((forall r, req = Label r -> lr_session_id r <> sid) ->
      APP_LABELLER_CACHE (state_after (handle E req st)) !! sid = Some s).
Proof.
  intros Hs. destruct req as [r|r|r]; cbn [handle].
  - rewrite train_sessions_frame, Hs. eauto.
  - rewrite predict_frame, Hs. eauto.
  - destruct (decide (sid = lr_session_id r)) as [->|Hne].
    + split; [|intros H; destruct (H r eq_refl eq_refl)].
      destruct (labeller_on_entry E r st s (working_entry_found E r st s Hs))
        as [_ ->].
      cbn [with_sessions APP_LABELLER_CACHE]. rewrite lookup_insert_eq. eauto.
    + rewrite labeller_other_sessions by assumption. rewrite Hs. eauto.
Qed.

(** X14.  An accepted submit resumes the generator with the submission and
    runs it to its next [yield]; what it yields there is dropped.  The
    request for the next batch that follows resumes the generator once more
    and answers with what it yields then, or with completion when it
    returns. *)
Theorem submission_drops_a_yield
    (st : State G) (req req' : LabelRequest) (s : Session G) body dropped rest :
  APP_LABELLER_CACHE st !! lr_session_id req = Some s ->
  awaiting_submission s = true ->
  generator s = GenSuspended body ->
  lr_submit req = true ->
  labeller_resume E body (lr_submission req) = GenYield dropped rest ->
  lr_session_id req' = lr_session_id req ->
  lr_submit req' = false ->
  let r := _labeller_endpoint E req st in
  let r' := _labeller_endpoint E req' (state_after r) in
  result r = inr (SubmitResponse true false)
  /\ APP_LABELLER_CACHE (state_after r) !! lr_session_id req
     = Some (mkSession (GenSuspended rest) false (session_complete s))
  /\ result r' =
       match labeller_resume E rest None with
       | GenYield batch _ => inr (BatchResponse batch false)
       | GenReturn => inr (BatchResponse VNone true)
       | GenRaise msg => inl (ProviderError msg)
       end.
Proof.
  intros Hs Ha Hg Hsub Hres Hid Hsub' r r'.
  pose proof (working_entry_found E req st s Hs) as Hw.
  destruct (labeller_on_entry E req st s Hw) as [Hr _].
  destruct (next_request_on_entry req req' st s Hw Hid) as (Hin & Hr' & _).
  fold r in Hr, Hin, Hr'. fold r' in Hr'.
  assert (Hserve : serve_entry E s true (lr_submission req)
                   = (mkSession (GenSuspended rest) false (session_complete s),
                      inr (SubmitResponse true false))).
  { unfold serve_entry. rewrite Ha, Hg. cbn [negb advance]. unfold resume.
    rewrite Hres. reflexivity. }
  rewrite Hsub, Hserve in Hr, Hin, Hr'. cbn [fst snd] in Hr, Hin, Hr'.
  repeat split; try assumption.
  rewrite Hr', Hsub'. unfold serve_entry.
  cbn [awaiting_submission generator advance]. unfold resume.
  destruct (labeller_resume E rest None); reflexivity.
Qed.

(** X15.  When the generator returns while it is resumed by a submit, the
    [StopIteration] of [send] escapes the handler and the session is left
    awaiting a submission with a finished generator.  From there every
    request for the next batch is rejected with [SubmissionPending], every
    submit raises [StopIteration] again, and neither changes the state: the
    session never completes. *)
Theorem session_stuck_after_exhausting_submit
    (st : State G) (req req' : LabelRequest) (s : Session G) body :
  APP_LABELLER_CACHE st !! lr_session_id req = Some s ->
  awaiting_submission s = true ->
  generator s = GenSuspended body ->
  lr_submit req = true ->
  labeller_resume E body (lr_submission req) = GenReturn ->
  lr_session_id req' = lr_session_id req ->
  let r := _labeller_endpoint E req st in
  let r' := _labeller_endpoint E req' (state_after r) in
  result r = inl StopIteration
  /\ APP_LABELLER_CACHE (state_after r) !! lr_session_id req
     = Some (mkSession GenClosed true (session_complete s))
  /\ result r' = (if lr_submit req' then inl StopIteration else inl SubmissionPending)
  /\ state_after r' = state_after r.
Proof.
  intros Hs Ha Hg Hsub Hres Hid r r'.
  pose proof (working_entry_found E req st s Hs) as Hw.
  destruct (labeller_on_entry E req st s Hw) as [Hr _].
  destruct (next_request_on_entry req req' st s Hw Hid) as (Hin & Hr' & Hst').
  fold r in Hr, Hin, Hr', Hst'. fold r' in Hr', Hst'.
  assert (Hserve : serve_entry E s true (lr_submission req)
                   = (mkSession GenClosed true (session_complete s),
                      inl StopIteration)).
  { unfold serve_entry. rewrite Ha, Hg. cbn [negb advance]. unfold resume.
    rewrite Hres. reflexivity. }
  rewrite Hsub, Hserve in Hr, Hin, Hr', Hst'. cbn [fst snd] in Hr, Hin, Hr', Hst'.
  assert (Hstay : serve_entry E (mkSession GenClosed true (session_complete s))
                    (lr_submit req') (lr_submission req')
                  = (mkSession GenClosed true (session_complete s),
                     if lr_submit req' then inl StopIteration
                     else inl SubmissionPending)).
  { unfold serve_entry. destruct (lr_submit req'); reflexivity. }
  rewrite Hstay in Hr', Hst'. cbn [fst snd] in Hr', Hst'.
  repeat split; try assumption.
  rewrite Hst', insert_id by assumption. apply with_sessions_same.
Qed.

(** X16.  When the body of the generator raises while a request for the
    next batch advances it, the request fails with that exception and both
    flags stay as they were; the generator is finished by then, so the next
    request for a batch reports the session complete. *)
Theorem labeller_exception_ends_session
    (st : State G) (req req' : LabelRequest) (s : Session G) body msg :
  APP_LABELLER_CACHE st !! lr_session_id req = Some s ->
  awaiting_submission s = false ->
  generator s = GenCreated body \/ generator s = GenSuspended body ->
  lr_submit req = false ->
  labeller_resume E body None = GenRaise msg ->
  lr_session_id req' = lr_session_id req ->
  lr_submit req' = false ->
  let r := _labeller_endpoint E req st in
  let r' := _labeller_endpoint E req' (state_after r) in
  result r = inl (ProviderError msg)
  /\ APP_LABELLER_CACHE (state_after r) !! lr_session_id req
     = Some (mkSession GenClosed false (session_complete s))
  /\ result r' = inr (BatchResponse VNone true)
  /\ APP_LABELLER_CACHE (state_after r') !! lr_session_id req
     = Some (mkSession GenClosed false true).
Proof.
  intros Hs Ha Hg Hsub Hres Hid Hsub' r r'.
  pose proof (working_entry_found E req st s Hs) as Hw.
  destruct (labeller_on_entry E req st s Hw) as [Hr _].
  destruct (next_request_on_entry req req' st s Hw Hid) as (Hin & Hr' & Hst').
  fold r in Hr, Hin, Hr', Hst'. fold r' in Hr', Hst'.
  assert (Hserve : serve_entry E s false (lr_submission req)
                   = (mkSession GenClosed false (session_complete s),
                      inl (ProviderError msg))).
  { unfold serve_entry. rewrite Ha.
    destruct Hg as [-> | ->]; cbn [advance]; unfold resume; rewrite Hres;
      reflexivity. }
  rewrite Hsub, Hserve in Hr, Hin, Hr', Hst'. cbn [fst snd] in Hr, Hin, Hr', Hst'.
  rewrite Hsub' in Hr', Hst'.
  repeat split; try assumption.
  rewrite Hst'. cbn [with_sessions APP_LABELLER_CACHE].
  rewrite lookup_insert_eq. reflexivity.
Qed.

(** X17.  The first request of a session creates it and serves it in one
    go: a request for the next batch asks the Dataset Provider for the
    generator, advances it once and answers with its first batch.  A
    generator that yields nothing makes this very request report the session
    complete. *)
Theorem first_request_delivers_first_batch
    (st : State G) (req : LabelRequest) kwargs body :
  APP_LABELLER_CACHE st !! lr_session_id req = None ->
  lr_reader_inputs req = Some kwargs ->
  dataset_labeller E (lr_session_id req) (lr_batch_size req) kwargs = inr body ->
  lr_submit req = false ->
  let r := _labeller_endpoint E req st in
  calls r = [ CallLabeller (lr_session_id req) (lr_batch_size req) kwargs;
              CallNext (lr_session_id req) ]
  /\ match labeller_resume E body None with
     | GenYield batch rest =>
         result r = inr (BatchResponse batch false)
         /\ APP_LABELLER_CACHE (state_after r) !! lr_session_id req
            = Some (mkSession (GenSuspended rest) true false)
     | GenReturn =>
         result r = inr (BatchResponse VNone true)
         /\ APP_LABELLER_CACHE (state_after r) !! lr_session_id req
            = Some (mkSession GenClosed false true)
     | GenRaise msg =>
         result r = inl (ProviderError msg)
         /\ APP_LABELLER_CACHE (state_after r) !! lr_session_id req
            = Some (mkSession GenClosed false false)
     end.
Proof.
  intros Hs Hkw Hlab Hsub r.
  assert (Hw : working_entry E req st = Some (mkSession (GenCreated body) false false)).
  { unfold working_entry. rewrite Hs, Hkw, Hlab. reflexivity. }
  destruct (labeller_on_entry E req st _ Hw) as [Hr Hst].
  pose proof (labeller_calls E req st _ Hw) as Hc.
  fold r in Hr, Hst, Hc.
  rewrite Hs, Hkw, Hsub in Hc. cbn [awaiting_submission app] in Hc.
  split; [assumption|].
  rewrite Hr, Hst, Hsub. cbn [with_sessions APP_LABELLER_CACHE].
  rewrite lookup_insert_eq. unfold serve_entry.
  cbn [awaiting_submission generator session_complete advance]. unfold resume.
  destruct (labeller_resume E body None); split; reflexivity.
Qed.

(** X18.  Once a session is complete, every submit to it is rejected with
    [NoSubmissionExpected] and changes nothing. *)
Theorem complete_session_rejects_submit
    (st : State G) (req : LabelRequest) (s : Session G) :
  reachable E st ->
  APP_LABELLER_CACHE st !! lr_session_id req = Some s ->
  session_complete s = true ->
  lr_submit req = true ->
  result (_labeller_endpoint E req st) = inl NoSubmissionExpected
  /\ state_after (_labeller_endpoint E req st) = st.
Proof.
  intros Hreach Hs Hc Hsub.
  destruct (reachable_entries_ok E st Hreach _ s Hs) as [Hok _].
  destruct (Hok Hc) as [Ha _].
  destruct (labeller_on_entry E req st s (working_entry_found E req st s Hs))
    as [Hr Hst].
  assert (Hserve : serve_entry E s true (lr_submission req)
                   = (s, inl NoSubmissionExpected)).
  { unfold serve_entry. rewrite Ha. reflexivity. }
  rewrite Hsub, Hserve in Hr, Hst. cbn [fst snd] in Hr, Hst.
  split; [assumption|].
  rewrite Hst, insert_id by assumption. apply with_sessions_same.
Qed.

(** X19.  In every state the service can reach, no labelling request fails
    with the [TypeError] of sending a value to a generator that was not
    started: the handler only sends to a generator from which it has taken a
    batch. *)
Theorem never_sends_to_unstarted_generator (st : State G) (req : LabelRequest) :
  reachable E st ->
  result (_labeller_endpoint E req st)
  <> inl (TypeError "can't send non-None value to a just-started generator").
Proof.
  intros Hreach.
  destruct (working_entry E req st) as [entry|] eqn:Hw.
  - destruct (labeller_on_entry E req st entry Hw) as [-> _].
    assert (Hok : entry_ok entry).
    { eapply working_entry_ok; [|exact Hw].
      apply (reachable_entries_ok E). assumption. }
    destruct Hok as [_ Hstarted]. unfold serve_entry.
    destruct (lr_submit req), (awaiting_submission entry); cbn [negb snd];
      try discriminate.
    + specialize (Hstarted eq_refl).
      destruct (generator entry) as [body|body|]; [discriminate| |].
      * cbn [advance]. unfold resume.
        destruct (labeller_resume E body (lr_submission req)); discriminate.
      * discriminate.
    + destruct (generator entry) as [body|body|]; cbn [advance]; unfold resume;
        try destruct (labeller_resume E body None); discriminate.
  - destruct (labeller_without_entry E req st Hw)
      as [_ [(_ & -> & _)|(kw & msg & _ & ->)]]; discriminate.
Qed.

End LabellerGenerator.

(** ** Registration through the wrapped application *)

(** X20.  On an application that went through [app_wrapper], a registration
    never raises the [ValueError] about unsupported methods: the three
    methods that were replaced are the three the check admits, and any other
    method registers the function as it is.  Through [get], [post] or [put]
    a registration fails in four cases only: the function has no tag
    ([AttributeError]), it is tagged [EVALUATOR] ([KeyError]), it is tagged
    [TRAINER] and pydantic refuses the declared hyperparameters, or FastAPI
    refuses the route.  A registration that succeeds appends one route, at
    the caller's method and path, that serves the handler chosen by the tag
    and never the caller's function.  The routes that were there, the
    landing page at [GET /] among them, stay in place. *)
Theorem registration_through_wrapped_app
    (fw : Framework) (hp : option (list (string * PyType)))
    (plain : list Route) (app : App) (verb path : string)
    (tag : option Endpoints) :
  app_wrapper fw plain = inr app ->
  routes app = (plain ++ [mkRoute "get" "/" RootPage])%list
  /\ match register fw hp app verb path tag with
     | inl failure =>
         (forall msg, failure <> WrapperRaised (ValueError msg))
         /\ if bool_decide (verb ∈ ["get"; "post"; "put"])
            then registration_failure_cause fw hp verb path tag failure
            else add_route_accepts fw verb path = false
                 /\ failure = FrameworkRaised "add_api_route"
     | inr app' =>
         replaced app' = ["get"; "post"; "put"]
         /\ exists endpoint,
              routes app'
              = (plain ++ [mkRoute "get" "/" RootPage;
                           mkRoute verb path endpoint])%list
              /\ if bool_decide (verb ∈ ["get"; "post"; "put"])
                 then exists t reg,
                        tag = Some t /\ endpoint = Substituted reg
                        /\ reg_endpoint reg = t /\ t <> EVALUATOR
                 else endpoint = UserFunction tag
     end.
Proof.
  unfold app_wrapper, add_route. cbn [routes replaced].
  destruct (add_route_accepts fw "get" "/"); [|discriminate].
  intros [= <-]. cbn [routes replaced]. split; [reflexivity|].
  unfold register, add_route, registration_wrapper, registration_failure_cause.
  cbn [routes replaced].
  destruct (bool_decide (verb ∈ ["get"; "post"; "put"])) eqn:Hverb; cbn [negb].
  - destruct tag as [t|].
    2: { split; [discriminate | auto]. }
    assert (Hadd : forall reg,
              reg_endpoint reg = t -> t <> EVALUATOR ->
              match
                (if add_route_accepts fw verb path
                 then inr (mkApp ((plain ++ [mkRoute "get" "/" RootPage])
                                    ++ [mkRoute verb path (Substituted reg)])
                             ["get"; "post"; "put"])
                 else inl (FrameworkRaised "add_api_route"))
              with
              | inl failure =>
                  (forall msg, failure <> WrapperRaised (ValueError msg))
                  /\ registration_failure_cause fw hp verb path (Some t) failure
              | inr app' =>
                  replaced app' = ["get"; "post"; "put"]
                  /\ exists endpoint,
                       routes app'
                       = (plain ++ [mkRoute "get" "/" RootPage;
                                    mkRoute verb path endpoint])%list
                       /\ exists t' reg',
                            Some t = Some t' /\ endpoint = Substituted reg'
                            /\ reg_endpoint reg' = t' /\ t' <> EVALUATOR
              end).
    { intros reg Hreg Hne.
      destruct (add_route_accepts fw verb path) eqn:Hacc.
      - cbn [routes replaced]. split; [reflexivity|].
        eexists. split; [rewrite <- app_assoc; reflexivity|]. eauto 10.
      - split; [discriminate|].
        unfold registration_failure_cause. do 3 right. auto. }
    unfold registration_failure_cause in Hadd.
    destruct t.
    + (* TRAINER *)
      destruct hp as [[|kv decl]|]; cbn [declares_hyperparameters truthy_list].
      1,3: apply Hadd; [reflexivity | discriminate].
      destruct (create_model_accepts fw (kv :: decl)) eqn:Hcm.
      * apply Hadd; [reflexivity | discriminate].
      * split; [discriminate|]. right; right; left. auto.
    + (* PREDICTOR *)
      destruct hp as [[|kv decl]|]; apply Hadd; (reflexivity || discriminate).
    + (* EVALUATOR *)
      split; [discriminate|]. right; left. auto.
    + (* LABELLER *)
      destruct hp as [[|kv decl]|]; apply Hadd; (reflexivity || discriminate).
  - destruct (add_route_accepts fw verb path) eqn:Hacc.
    + cbn [routes replaced]. split; [reflexivity|].
      eexists. split; [rewrite <- app_assoc; reflexivity|]. reflexivity.
    + split; [discriminate | auto].
Qed.

(** ** The further properties on the sample deployments *)

(** A local prediction that carries both inputs and features. *)
Lemma inputs_take_precedence_witness :
  _predict_endpoint Sample.deployment Scripted.predict_with_inputs_and_features
    Scripted.trained_state
  = _predict_endpoint Sample.deployment
      (without_features Scripted.predict_with_inputs_and_features)
      Scripted.trained_state.
Proof.
  apply (inputs_take_precedence Sample.deployment Scripted.trained_state
           Scripted.predict_with_inputs_and_features).
  vm_compute. reflexivity.
Defined.

(** A local prediction whose inputs name a model of their own. *)
Lemma inputs_can_replace_the_model_witness :
  forallb (scores_with (VObj 99))
    (calls (_predict_endpoint Sample.deployment Scripted.predict_with_own_model
              Scripted.trained_state)) = true.
Proof.
  apply (inputs_can_replace_the_model Sample.deployment Scripted.trained_state
           Scripted.predict_with_own_model {[ "model" := VObj 99 ]} (VObj 99)).
  - reflexivity.
  - vm_compute. reflexivity.
Defined.

(** A prediction that asks for the source "Remote", on a fresh Model Handle. *)
Lemma any_other_source_is_local_witness :
  result (_predict_endpoint Sample.deployment
            (Scripted.predict_from_cache_named "Remote") initial_state)
  = inl ModelNotTrained.
Proof.
  destruct (any_other_source_is_local Sample.deployment initial_state
              (Scripted.predict_from_cache_named "Remote")) as [_ Hiff].
  - discriminate.
  - apply Hiff. reflexivity.
Defined.

(** A prediction from the cache of a trained Model Handle. *)
Lemma local_source_scores_with_cache_witness :
  forallb (scores_with Sample.trained)
    (calls (_predict_endpoint Sample.deployment
              (Scripted.predict_from_cache_named "local") Scripted.trained_state))
  = true.
Proof.
  apply (local_source_scores_with_cache Sample.deployment Scripted.trained_state
           (Scripted.predict_from_cache_named "local")).
  - discriminate.
  - intros d [= <-]. vm_compute. reflexivity.
Defined.

(** A prediction against a gateway that has run the train workflow three
    times; the listing holds the execution of time 3. *)
Lemma remote_source_scores_with_first_listed_witness :
  forallb (scores_with (VObj 10))
    (calls (_predict_endpoint
              (Sample.env [Sample.succeeded_at 1; Sample.failed_at 2;
                           Sample.succeeded_at 3])
              (Sample.predict_from_remote_model true) initial_state))
  = true.
Proof.
  apply (remote_source_scores_with_first_listed
           (Sample.env [Sample.succeeded_at 1; Sample.failed_at 2;
                        Sample.succeeded_at 3])
           initial_state (Sample.predict_from_remote_model true)
           Sample.train_workflow (Sample.succeeded_at 3) [] ""
           (mkExecution (Some (Sample.succeeded_at 3))
              {[ "trained_model" := VObj 10 ]})
           (VObj 10)).
  - reflexivity.
  - intros d [=].
  - reflexivity.
  - vm_compute. reflexivity.
  - reflexivity.
  - vm_compute. reflexivity.
Defined.

(** A prediction from features on the sample deployment, whose Dataset
    Provider returns a tensor. *)
Lemma features_are_materialised_witness :
  forallb (given_features (VObj 20))
    (calls (_predict_endpoint Sample.deployment Scripted.predict_from_features
              Scripted.trained_state)) = true.
Proof.
  apply (features_are_materialised Sample.deployment Scripted.trained_state
           Scripted.predict_from_features [ {[ "x" := VInt 2 ]} ]).
  - reflexivity.
  - reflexivity.
  - discriminate.
Defined.

(** A remote train on the sample deployment. *)
Lemma remote_train_outcome_witness :
  state_after (_train_endpoint Sample.deployment Sample.train_remotely initial_state)
  = initial_state.
Proof.
  destruct (remote_train_outcome Sample.deployment initial_state
              Sample.train_remotely eq_refl) as (_ & Hst & _).
  exact Hst.
Defined.

(** Two requests for the next batch of [session-1] that differ in
    [batch_size] and [reader_inputs], once the session exists. *)
Lemma existing_session_ignores_creation_arguments_witness :
  _labeller_endpoint (Scripted.env [inl (VObj 100); inl (VObj 101)])
    (Scripted.next_batch_with 50 None)
    (Scripted.after_first_batch [inl (VObj 100); inl (VObj 101)])
  = _labeller_endpoint (Scripted.env [inl (VObj 100); inl (VObj 101)])
      (Scripted.next_batch_with 3 (Some ∅))
      (Scripted.after_first_batch [inl (VObj 100); inl (VObj 101)]).
Proof.
  apply (existing_session_ignores_creation_arguments
           (Scripted.env [inl (VObj 100); inl (VObj 101)])
           (Scripted.after_first_batch [inl (VObj 100); inl (VObj 101)])
           (Scripted.next_batch_with 3 (Some ∅))
           (Scripted.next_batch_with 50 None)).
  - vm_compute. eauto.
  - reflexivity.
  - reflexivity.
  - discriminate.
Defined.

(** A request for another session while [session-1] awaits its labels. *)
Lemma sessions_persist_witness :
  APP_LABELLER_CACHE
    (state_after
       (handle (Scripted.env [inl (VObj 100)])
          (Label Scripted.next_batch_of_other_session)
          (Scripted.after_first_batch [inl (VObj 100)])))
  !! "session-1"
  = Some (mkSession (GenSuspended []) true false).
Proof.
  destruct (sessions_persist (Scripted.env [inl (VObj 100)])
              (Scripted.after_first_batch [inl (VObj 100)])
              (Label Scripted.next_batch_of_other_session)
              "session-1" (mkSession (GenSuspended []) true false)) as [_ Hsame].
  - vm_compute. reflexivity.
  - apply Hsame. intros r [= <-]. discriminate.
Defined.

(** A script of three batches: the second one is yielded to the submit and
    never delivered; the next request delivers the third. *)
Lemma submission_drops_a_yield_witness :
  result (_labeller_endpoint
            (Scripted.env [inl (VObj 100); inl (VObj 101); inl (VObj 102)])
            Sample.next_batch
            (state_after
               (_labeller_endpoint
                  (Scripted.env [inl (VObj 100); inl (VObj 101); inl (VObj 102)])
                  Scripted.submit
                  (Scripted.after_first_batch
                     [inl (VObj 100); inl (VObj 101); inl (VObj 102)]))))
  = inr (BatchResponse (VObj 102) false).
Proof.
  destruct (submission_drops_a_yield
              (Scripted.env [inl (VObj 100); inl (VObj 101); inl (VObj 102)])
              (Scripted.after_first_batch
                 [inl (VObj 100); inl (VObj 101); inl (VObj 102)])
              Scripted.submit Sample.next_batch
              (mkSession (GenSuspended [inl (VObj 101); inl (VObj 102)]) true false)
              [inl (VObj 101); inl (VObj 102)] (VObj 101) [inl (VObj 102)]
              eq_refl eq_refl eq_refl eq_refl eq_refl eq_refl eq_refl)
    as (_ & _ & Hnext).
  exact Hnext.
Defined.

(** A script of one batch: the submit of its labels exhausts the generator,
    and the request for the next batch that follows is rejected. *)
Lemma session_stuck_after_exhausting_submit_witness :
  result (_labeller_endpoint (Scripted.env [inl (VObj 100)]) Scripted.submit
            (Scripted.after_first_batch [inl (VObj 100)]))
  = inl StopIteration
  /\ result (_labeller_endpoint (Scripted.env [inl (VObj 100)]) Sample.next_batch
               (state_after
                  (_labeller_endpoint (Scripted.env [inl (VObj 100)]) Scripted.submit
                     (Scripted.after_first_batch [inl (VObj 100)]))))
     = inl SubmissionPending.
Proof.
  destruct (session_stuck_after_exhausting_submit
              (Scripted.env [inl (VObj 100)])
              (Scripted.after_first_batch [inl (VObj 100)])
              Scripted.submit Sample.next_batch
              (mkSession (GenSuspended []) true false) []
              eq_refl eq_refl eq_refl eq_refl eq_refl eq_refl)
    as (Hfirst & _ & Hnext & _).
  split; assumption.
Defined.

(** A script that raises at once: the first request for a batch fails, the
    second reports completion. *)
Lemma labeller_exception_ends_session_witness :
  result (_labeller_endpoint (Scripted.env [inr "disk full"]) Sample.next_batch
            (state_after
               (_labeller_endpoint (Scripted.env [inr "disk full"])
                  Sample.next_batch
                  (Scripted.after_rejected_submit [inr "disk full"]))))
  = inr (BatchResponse VNone true).
Proof.
  destruct (labeller_exception_ends_session
              (Scripted.env [inr "disk full"])
              (Scripted.after_rejected_submit [inr "disk full"])
              Sample.next_batch Sample.next_batch
              (mkSession (GenCreated [inr "disk full"]) false false)
              [inr "disk full"] "disk full"
              eq_refl eq_refl (or_introl eq_refl) eq_refl eq_refl eq_refl eq_refl)
    as (_ & _ & Hnext & _).
  exact Hnext.
Defined.

(** An empty script: the first request of the session reports it complete. *)
Lemma first_request_delivers_first_batch_witness :
  result (_labeller_endpoint (Scripted.env []) Sample.next_batch initial_state)
  = inr (BatchResponse VNone true).
Proof.
  destruct (first_request_delivers_first_batch (Scripted.env []) initial_state
              Sample.next_batch ∅ [] eq_refl eq_refl eq_refl eq_refl) as [_ Hres].
  exact (proj1 Hres).
Defined.

(** A submit to [session-1] after its generator was found exhausted. *)
Lemma complete_session_rejects_submit_witness :
  result (_labeller_endpoint Sample.deployment Sample.submit_labels
            (Sample.after Sample.deployment
               [Label Sample.next_batch; Label Sample.submit_labels;
                Label Sample.next_batch]))
  = inl NoSubmissionExpected.
Proof.
  destruct (complete_session_rejects_submit Sample.deployment
              (Sample.after Sample.deployment
                 [Label Sample.next_batch; Label Sample.submit_labels;
                  Label Sample.next_batch])
              Sample.submit_labels (mkSession GenClosed false true))
    as [Hres _].
  - apply reachable_after.
  - vm_compute. reflexivity.
  - reflexivity.
  - reflexivity.
  - exact Hres.
Defined.

(** A submit as the first request of a session. *)
Lemma never_sends_to_unstarted_generator_witness :
  result (_labeller_endpoint Sample.deployment Sample.submit_labels initial_state)
  <> inl (TypeError "can't send non-None value to a just-started generator").
Proof.
  apply (never_sends_to_unstarted_generator Sample.deployment initial_state
           Sample.submit_labels).
  constructor.
Defined.

(** ** A generator exhausted by a submit *)

Lemma asked_again_stuck n : Exhausted.asked_again n = Exhausted.stuck_state.
Proof.
  induction n as [|n IH]; [reflexivity|].
  change (Exhausted.asked_again (S n))
    with (state_after (_labeller_endpoint Exhausted.deployment Sample.next_batch
                         (Exhausted.asked_again n))).
  rewrite IH. vm_compute. reflexivity.
Qed.

(** C6.  The claim is that a session becomes complete on the first request
    for the next batch whose computation is exhausted, and that later
    requests answer [{batch: null, session_complete: true}].  With a labeller
    of one batch, the first request delivers the batch and the submit of its
    labels resumes the generator, which returns: [send] raises
    [StopIteration], outside the [try] that guards [next], and the flag
    [awaiting_submission] is not cleared.  The computation is exhausted from
    then on, yet every request for the next batch, however many are sent, is
    rejected with [SubmissionPending] and the session is never complete. *)
Theorem exhausted_by_submit_never_completes :
  reachable Exhausted.deployment Exhausted.stuck_state
  /\ result (_labeller_endpoint Exhausted.deployment Sample.next_batch initial_state)
     = inr (BatchResponse (VObj 100) false)
  /\ result Exhausted.submitted = inl StopIteration
  /\ (advance Exhausted.deployment GenClosed None).2 = inl StopIteration
  /\ forall n,
       APP_LABELLER_CACHE (Exhausted.asked_again n) !! "session-1"
       = Some (mkSession GenClosed true false)
       /\ result (_labeller_endpoint Exhausted.deployment Sample.next_batch
                    (Exhausted.asked_again n))
          = inl SubmissionPending.
Proof.
  split; [|split; [|split; [|split]]].
  - apply (reachable_step Exhausted.deployment _ (Label Scripted.submit)).
    apply (reachable_step Exhausted.deployment _ (Label Sample.next_batch)).
    constructor.
  - vm_compute. reflexivity.
  - vm_compute. reflexivity.
  - reflexivity.
  - intros n. rewrite asked_again_stuck. split; vm_compute; reflexivity.
Qed.

(** A function tagged for the labeller, registered with [post] on a wrapped
    application whose framework refuses nothing. *)
Lemma registration_through_wrapped_app_witness :
  exists app',
    register permissive None
      (mkApp [mkRoute "get" "/" RootPage] ["get"; "post"; "put"])
      "post" "/label" (Some LABELLER) = inr app'
    /\ replaced app' = ["get"; "post"; "put"].
Proof.
  pose proof (registration_through_wrapped_app permissive None []
                (mkApp [mkRoute "get" "/" RootPage] ["get"; "post"; "put"])
                "post" "/label" (Some LABELLER) eq_refl) as [_ H].
  destruct (register permissive None
              (mkApp [mkRoute "get" "/" RootPage] ["get"; "post"; "put"])
              "post" "/label" (Some LABELLER)) as [failure|app'] eqn:Hreg.
  - vm_compute in Hreg. discriminate.
  - exists app'. split; [reflexivity | apply H].
Defined.
